(** * muda.deformers.filter: passband classifier, annotation adapters and
      state generators

    A shallow embedding of [muda/deformers/filter.py].

    Conventions of the embedding.
    - A Python number is a [pynum]: an [int] carries a [Z], a [float] carries
      the rational it denotes.  Only finite values are modelled; the code
      compares, adds, subtracts and divides by the constants 2 and 10, which is
      exact on rationals.
    - A Python value that the code handles dynamically is a [pyval].
    - A [dict] with string keys is a [gmap string pyval]; a missing key raises
      [KeyError].
    - A call that may raise returns a [result].
    - A generator is run to completion and gives its trace: the objects it
      yielded, each with the store as it was at that yield, the final store
      and how the run ended.  The state dictionaries live in a store, because
      the generators of this file yield one dictionary object several times. *)

From Stdlib Require Import ZArith QArith String Ascii List Lia DecimalString.
From Stdlib Require DecimalPos.
From stdpp Require Import base gmap strings list.

Open Scope Z_scope.
Open Scope string_scope.

(** ** Python values *)

Inductive pynum : Type :=
  | PInt (z : Z)
  | PFloat (q : Q).

#[warnings="-register-all"]
Inductive pyval : Type :=
  | VNone
  | VNum (n : pynum)
  | VStr (s : string)
  | VTuple (t : list pyval)
  | VList (l : list pyval).

Inductive exn : Type :=
  | ValueError (msg : string)
  | TypeError
  | ZeroDivisionError
  | KeyError (key : string)
  | IndexError
  | NameError (name : string)
  | UnboundLocalError (name : string)
  | LibraryError.

Inductive result (A : Type) : Type :=
  | Ok (a : A)
  | Raise (e : exn).

Arguments Ok {A} a.
Arguments Raise {A} e.

Definition rbind {A B : Type} (r : result A) (k : A -> result B) : result B :=
  match r with
  | Ok a => k a
  | Raise e => Raise e
  end.

Notation "'let*' x ':=' r 'in' k" := (rbind r (fun x => k))
  (at level 10, x pattern, r at level 100, k at level 200).

(** The rational a number denotes; Python compares an [int] with a [float] by
    value. *)
Definition num_val (n : pynum) : Q :=
  match n with
  | PInt z => inject_Z z
  | PFloat q => q
  end.

Definition num_leb (a b : pynum) : bool := Qle_bool (num_val a) (num_val b).
Definition num_geb (a b : pynum) : bool := Qle_bool (num_val b) (num_val a).
Definition num_gtb (a b : pynum) : bool := negb (Qle_bool (num_val a) (num_val b)).
Definition num_eqb (a b : pynum) : bool := Qeq_bool (num_val a) (num_val b).

(** [a + b] and [a - b] stay in [int] on two ints; [a / b] is true
    division and always gives a float.  [float(a)] on a number. *)
Definition num_add (a b : pynum) : pynum :=
  match a, b with
  | PInt x, PInt y => PInt (x + y)
  | _, _ => PFloat (num_val a + num_val b)%Q
  end.

Definition num_sub (a b : pynum) : pynum :=
  match a, b with
  | PInt x, PInt y => PInt (x - y)
  | _, _ => PFloat (num_val a - num_val b)%Q
  end.

Definition num_div (a b : pynum) : pynum := PFloat (num_val a / num_val b)%Q.

Definition to_float (a : pynum) : pynum := PFloat (num_val a).

(** [a <= b] and [a >= b] on dynamic values: defined on two numbers, a
    [TypeError] otherwise (in particular when one side is [None]). *)
Definition py_le (a b : pyval) : result bool :=
  match a, b with
  | VNum x, VNum y => Ok (num_leb x y)
  | _, _ => Raise TypeError
  end.

Definition py_ge (a b : pyval) : result bool :=
  match a, b with
  | VNum x, VNum y => Ok (num_geb x y)
  | _, _ => Raise TypeError
  end.

Definition py_gt (a b : pyval) : result bool :=
  match a, b with
  | VNum x, VNum y => Ok (num_gtb x y)
  | _, _ => Raise TypeError
  end.

Definition py_add (a b : pyval) : result pyval :=
  match a, b with
  | VNum x, VNum y => Ok (VNum (num_add x y))
  | _, _ => Raise TypeError
  end.

Definition py_sub (a b : pyval) : result pyval :=
  match a, b with
  | VNum x, VNum y => Ok (VNum (num_sub x y))
  | _, _ => Raise TypeError
  end.

Definition py_truediv (a b : pyval) : result pyval :=
  match a, b with
  | VNum x, VNum y =>
      if num_eqb y (PInt 0) then Raise ZeroDivisionError
      else Ok (VNum (num_div x y))
  | _, _ => Raise TypeError
  end.

(** [float(v)].  A string is not parsed: the model raises as Python does for
    a string that is not a numeral. *)
Definition py_float (v : pyval) : result pynum :=
  match v with
  | VNum n => Ok (to_float n)
  | VStr _ => Raise (ValueError "could not convert string to float")
  | _ => Raise TypeError
  end.

(** [d[k]] *)
Definition getitem (d : gmap string pyval) (k : string) : result pyval :=
  match d !! k with
  | Some v => Ok v
  | None => Raise (KeyError k)
  end.

(** [v == s] for a string literal [s]. *)
Definition eq_str (v : pyval) (s : string) : bool :=
  match v with
  | VStr s' => String.eqb s' s
  | _ => false
  end.

(** [low, high = v] *)
Definition unpack2 (v : pyval) : result (pyval * pyval) :=
  match v with
  | VTuple [a; b] | VList [a; b] => Ok (a, b)
  | VTuple _ | VList _ => Raise (ValueError "unpack")
  | _ => Raise TypeError
  end.

(** ** The passband classifier *)

Section Classifier.

(** [librosa.midi_to_hz] and [librosa.note_to_hz] are library functions. *)
Variable midi_to_hz : pynum -> pynum.
Variable note_to_hz : string -> result pynum.

(** The first [if] chain of [checkfreqinband]: the local [frequency] stays
    unbound when [datatype] is none of the three units. *)
Definition convert_frequency (freq : pyval) (datatype : string)
    : result (option pyval) :=
  if String.eqb datatype "midi" then
    match freq with
    | VNum m => Ok (Some (VNum (midi_to_hz m)))
    | _ => Raise TypeError
    end
  else if String.eqb datatype "hz" then Ok (Some freq)
  else if String.eqb datatype "pitchclass" then
    match freq with
    | VStr s => let* hz := note_to_hz s in Ok (Some (VNum hz))
    | _ => Raise TypeError
    end
  else Ok None.

(** The second [if] chain: the bounds [(low, high)] read from the state. *)
Definition passband_bounds (state : gmap string pyval)
    : result (pyval * pyval) :=
  let* btype := getitem state "btype" in
  if eq_str btype "bandpass" then
    let* c := getitem state "cut_off" in
    unpack2 c
  else
    let* btype := getitem state "btype" in
    if eq_str btype "low" then
      let* high := getitem state "cut_off" in
      Ok (VNum (PInt 0), high)
    else
      let* high := getitem state "nyquist" in
      let* low := getitem state "cut_off" in
      Ok (low, high).

Definition checkfreqinband (freq : pyval) (state : gmap string pyval)
    (datatype : string) : result (pyval * bool) :=
  let* bound := convert_frequency freq datatype in
  let* (low, high) := passband_bounds state in
  let* frequency := match bound with
                    | Some f => Ok f
                    | None => Raise (UnboundLocalError "frequency")
                    end in
  let* c1 := py_le frequency low in
  if c1 then Ok (VNone, false)
  else
    let* c2 := py_ge frequency high in
    if c2 then Ok (VNone, false)
    else Ok (freq, true).

End Classifier.

(** The passband as section 4.1 of the specification words it: the pair of
    bounds of a descriptor whose [btype] is one of the three band types and
    whose [cut_off] has the matching shape. *)
Definition spec_passband (state : gmap string pyval) : option (pynum * pynum) :=
  match state !! "btype", state !! "cut_off" with
  | Some (VStr b), Some (VTuple [VNum lo; VNum hi]) =>
      if String.eqb b "bandpass" then Some (lo, hi) else None
  | Some (VStr b), Some (VNum c) =>
      if String.eqb b "low" then Some (PInt 0, c)
      else if String.eqb b "high" then
        match state !! "nyquist" with
        | Some (VNum n) => Some (c, n)
        | _ => None
        end
      else None
  | _, _ => None
  end.

Definition strictly_between (lo f hi : pynum) : Prop :=
  (num_val lo < num_val f)%Q /\ (num_val f < num_val hi)%Q.

(** ** Annotation adapters *)

(** An observation of a JAMS annotation.  [time], [duration] and [confidence]
    are carried through and never inspected. *)
Record Observation (V : Type) : Type := mkObs {
  time : pyval;
  duration : pyval;
  confidence : pyval;
  value : V
}.

Arguments mkObs {V} time duration confidence value.
Arguments time {V} o.
Arguments duration {V} o.
Arguments confidence {V} o.
Arguments value {V} o.

(** The value of a [pitch_contour] observation. *)
Record ContourValue : Type := mkContour {
  index : Z;
  frequency : pyval;
  voiced : bool
}.

(** The value of a [pitch_class] observation. *)
Record ClassValue : Type := mkClass {
  tonic : string;
  pitch : Z
}.

(** [str(n)] for an [int]. *)
Definition str_of_int (n : Z) : string :=
  NilZero.string_of_int (Z.to_int n).

(** [s[:-1]] and [s[-1]] on strings. *)
Fixpoint str_init (s : string) : string :=
  match s with
  | EmptyString => EmptyString
  | String c s' =>
      match s' with
      | EmptyString => EmptyString
      | String _ _ => String c (str_init s')
      end
  end.

Fixpoint str_last (s : string) : option ascii :=
  match s with
  | EmptyString => None
  | String c s' =>
      match s' with
      | EmptyString => Some c
      | String _ _ => str_last s'
      end
  end.

Definition is_digit (c : ascii) : bool :=
  (48 <=? Z.of_nat (nat_of_ascii c))%Z && (Z.of_nat (nat_of_ascii c) <=? 57)%Z.

(** [int(c)] for a one-character string. *)
Definition int_of_char (c : ascii) : result Z :=
  if is_digit c then Ok (Z.of_nat (nat_of_ascii c) - 48)
  else Raise (ValueError "invalid literal for int()").

(** [v[:-1]] and [v[-1]] on a dynamic value; the adapters apply them to what
    the classifier returned. *)
Definition slice_init (v : pyval) : result string :=
  match v with
  | VStr s => Ok (str_init s)
  | _ => Raise TypeError
  end.

Definition index_last (v : pyval) : result ascii :=
  match v with
  | VStr s =>
      match str_last s with
      | Some c => Ok c
      | None => Raise IndexError
      end
  | _ => Raise TypeError
  end.

(** Each adapter pops the data of the annotation and appends to the emptied
    annotation while it walks the popped observations.  An adapter returns the
    data of the annotation when the call ends and the exception that ended it,
    if any. *)
Section Adapters.

Variable midi_to_hz : pynum -> pynum.
Variable note_to_hz : string -> result pynum.

Let classify := checkfreqinband midi_to_hz note_to_hz.

Fixpoint filter_contour_loop (data : list (Observation ContourValue))
    (state : gmap string pyval) (annotation : list (Observation ContourValue))
    : list (Observation ContourValue) * option exn :=
  match data with
  | [] => (annotation, None)
  | obs :: data' =>
      match classify (frequency (value obs)) state "hz" with
      | Raise e => (annotation, Some e)
      | Ok (new_freq, voice) =>
          filter_contour_loop data' state
            (annotation ++
               [mkObs (time obs) (duration obs) (confidence obs)
                  (mkContour (index (value obs)) new_freq voice)])
      end
  end.

Definition filter_contour (data : list (Observation ContourValue))
    (state : gmap string pyval) :=
  filter_contour_loop data state [].

(** [filter_hz] and [filter_midi] differ in the unit only. *)
Fixpoint filter_scalar_loop (datatype : string)
    (data : list (Observation pyval)) (state : gmap string pyval)
    (annotation : list (Observation pyval))
    : list (Observation pyval) * option exn :=
  match data with
  | [] => (annotation, None)
  | obs :: data' =>
      match classify (value obs) state datatype with
      | Raise e => (annotation, Some e)
      | Ok (new_freq, voice) =>
          if voice then
            filter_scalar_loop datatype data' state
              (annotation ++
                 [mkObs (time obs) (duration obs) (confidence obs) new_freq])
          else filter_scalar_loop datatype data' state annotation
      end
  end.

Definition filter_hz (data : list (Observation pyval))
    (state : gmap string pyval) :=
  filter_scalar_loop "hz" data state [].

Definition filter_midi (data : list (Observation pyval))
    (state : gmap string pyval) :=
  filter_scalar_loop "midi" data state [].

(** The token [value["tonic"] + str(value["pitch"])]. *)
Definition class_token (v : ClassValue) : string :=
  String.append (tonic v) (str_of_int (pitch v)).

(** The body of the [if voice:] branch of [filter_class]. *)
Definition class_value_of (new_freq : pyval) : result ClassValue :=
  let* t := slice_init new_freq in
  let* c := index_last new_freq in
  let* p := int_of_char c in
  Ok (mkClass t p).

Fixpoint filter_class_loop (data : list (Observation ClassValue))
    (state : gmap string pyval) (annotation : list (Observation ClassValue))
    : list (Observation ClassValue) * option exn :=
  match data with
  | [] => (annotation, None)
  | obs :: data' =>
      match classify (VStr (class_token (value obs))) state "pitchclass" with
      | Raise e => (annotation, Some e)
      | Ok (new_freq, voice) =>
          if voice then
            match class_value_of new_freq with
            | Raise e => (annotation, Some e)
            | Ok v =>
                filter_class_loop data' state
                  (annotation ++
                     [mkObs (time obs) (duration obs) (confidence obs) v])
            end
          else filter_class_loop data' state annotation
      end
  end.

Definition filter_class (data : list (Observation ClassValue))
    (state : gmap string pyval) :=
  filter_class_loop data state [].

End Adapters.

(** ** State generators *)

(** The session, reduced to what the generators read:
    [jam.sandbox.muda._audio["sr"]]. *)
Record Jam : Type := mkJam { sr : pynum }.

(** The store of dictionary objects; an object is named by its position. *)
Abbreviation store := (list (gmap string pyval)).

Definition new_dict (d : gmap string pyval) (h : store) : nat * store :=
  (length h, (h ++ [d])%list).

(** [state[k] = v] and [state[k]] on the object [state] of the store. *)
Definition setitem (state : nat) (k : string) (v : pyval) (h : store) : store :=
  alter (insert k v) state h.

Definition state_getitem (h : store) (state : nat) (k : string) : result pyval :=
  match h !! state with
  | Some d => getitem d k
  | None => Raise (KeyError k)
  end.

(** How a run of a generator ended.  [OutOfFuel] stands for a [while] loop
    that was still running when the fuel given to the model ran out. *)
Inductive ending : Type :=
  | Finished
  | Raised (e : exn)
  | OutOfFuel.

(** The run of a generator: each yielded object with the store at that yield,
    the store when the run ended, and how it ended. *)
Record trace : Type := mkTrace {
  yielded : list (nat * store);
  final : store;
  ending_of : ending
}.

Definition yield (state : nat) (h : store) (rest : trace) : trace :=
  mkTrace ((state, h) :: yielded rest) (final rest) (ending_of rest).

(** The local variables of a generator frame that hold numbers.  None of the
    names read through [read_name] ([fs], [freq], [low], [high]) is bound at
    module level or is a builtin, so a name missing from the frame raises
    [NameError]. *)
Abbreviation frame := (gmap string pyval).

Definition read_name (fr : frame) (x : string) : result pyval :=
  match fr !! x with
  | Some v => Ok v
  | None => Raise (NameError x)
  end.

(** [range(n)] *)
Definition py_range (n : pyval) : result nat :=
  match n with
  | VNum (PInt z) => Ok (Z.to_nat z)
  | _ => Raise TypeError
  end.

(** [np.atleast_1d(cutoff).flatten().tolist()], for a scalar, a list of
    numbers and a list of equally long rows of numbers.  numpy converts every
    entry to float as soon as one entry is a float.  Other shapes are left to
    numpy and modelled as a library error. *)
Definition is_num (v : pyval) : bool :=
  match v with VNum _ => true | _ => false end.

Definition is_float (v : pyval) : bool :=
  match v with VNum (PFloat _) => true | _ => false end.

Definition row_of (v : pyval) : option (list pyval) :=
  match v with
  | VList l | VTuple l => if forallb is_num l then Some l else None
  | _ => None
  end.

Definition np_coerce (l : list pyval) : list pyval :=
  if existsb is_float l then
    map (fun v => match v with VNum n => VNum (to_float n) | _ => v end) l
  else l.

Definition np_atleast_1d_flatten_tolist (cutoff : pyval) : result (list pyval) :=
  match cutoff with
  | VList l | VTuple l =>
      if forallb is_num l then Ok (np_coerce l)
      else
        match mapM row_of l with
        | Some (r :: rows) =>
            if forallb (fun r' => Nat.eqb (length r') (length r)) rows
            then Ok (np_coerce (concat (r :: rows)))
            else Raise LibraryError
        | _ => Raise LibraryError
        end
  | _ => Ok [cutoff]
  end.

(** [sum(np.array(cutoff) <= 0) > 0] for a list of numbers. *)
Definition np_any_nonpositive (l : list pyval) : result bool :=
  if forallb is_num l then
    Ok (existsb (fun v => match v with
                          | VNum n => num_leb n (PInt 0)
                          | _ => false
                          end) l)
  else Raise LibraryError.

(** The three calls of the order estimator, each argument evaluated in the
    order Python evaluates it.  [scipy.signal.cheb2ord] is a library function;
    [cheb2ord wp ws gpass gstop fs] stands for
    [signal.cheb2ord(wp, ws, gpass, gstop, fs=fs)[0]], a scalar band edge
    being passed as a one-element list. *)
Section OrderEstimate.

Variable cheb2ord :
  list pyval -> list pyval -> pyval -> pyval -> pyval -> result Z.

(** [signal.cheb2ord([low,high], [low-fs/10,high+fs/10], 3, attenuation, fs=fs)[0]] *)
Definition order_bandpass (fr : frame) (attenuation : pyval) : result Z :=
  let* low1 := read_name fr "low" in
  let* high1 := read_name fr "high" in
  let* low2 := read_name fr "low" in
  let* fs1 := read_name fr "fs" in
  let* d1 := py_truediv fs1 (VNum (PInt 10)) in
  let* ws1 := py_sub low2 d1 in
  let* high2 := read_name fr "high" in
  let* fs2 := read_name fr "fs" in
  let* d2 := py_truediv fs2 (VNum (PInt 10)) in
  let* ws2 := py_add high2 d2 in
  let* fs3 := read_name fr "fs" in
  cheb2ord [low1; high1] [ws1; ws2] (VNum (PInt 3)) attenuation fs3.

(** [signal.cheb2ord(freq, freq+fs/10, 3, attenuation, fs=fs)[0]] *)
Definition order_low (fr : frame) (attenuation : pyval) : result Z :=
  let* freq1 := read_name fr "freq" in
  let* freq2 := read_name fr "freq" in
  let* fs1 := read_name fr "fs" in
  let* d1 := py_truediv fs1 (VNum (PInt 10)) in
  let* ws := py_add freq2 d1 in
  let* fs2 := read_name fr "fs" in
  cheb2ord [freq1] [ws] (VNum (PInt 3)) attenuation fs2.

(** [signal.cheb2ord(freq, freq-fs/10, 3, attenuation, fs=fs)[0]] *)
Definition order_high (fr : frame) (attenuation : pyval) : result Z :=
  let* freq1 := read_name fr "freq" in
  let* freq2 := read_name fr "freq" in
  let* fs1 := read_name fr "fs" in
  let* d1 := py_truediv fs1 (VNum (PInt 10)) in
  let* ws := py_sub freq2 d1 in
  let* fs2 := read_name fr "fs" in
  cheb2ord [freq1] [ws] (VNum (PInt 3)) attenuation fs2.

End OrderEstimate.

Module AbstractFilter.

(** [states] creates one dictionary [{nyquist: sr/2}] and yields it once;
    it does nothing after the yield.  The model returns the object and the
    store after its creation: a [for state in AbstractFilter.states(...)]
    runs its body once, on that object. *)
Definition states (jam : Jam) (h : store) : nat * store :=
  new_dict {[ "nyquist" := VNum (num_div (sr jam) (PInt 2)) ]} h.

Section Audio.

(** [scipy.signal.cheby2] and [scipy.signal.sosfiltfilt] are library
    functions.  [cheby2 N rs Wn btype fs] stands for
    [signal.cheby2(N, rs, Wn, btype=btype, output='sos', fs=fs)], a scalar
    critical frequency being passed as a one-element list. *)
Variables Sos Signal : Type.
Variable cheby2 : pyval -> pyval -> list pyval -> pyval -> pynum -> result Sos.
Variable sosfiltfilt : Sos -> Signal -> result Signal.

(** [mudabox._audio], with its keys [sr] and [y]. *)
Record AudioBuffer : Type := mkAudio {
  audio_sr : pynum;
  audio_y : Signal
}.

(** [AbstractFilter.audio].  The buffer is assigned to last, so a call that
    raises leaves it as it was. *)
Definition audio (mudabox : AudioBuffer) (state : gmap string pyval)
    : result AudioBuffer :=
  let* btype := getitem state "btype" in
  let* sos :=
    (if eq_str btype "bandpass" then
       let* c := getitem state "cut_off" in
       let* (low, high) := unpack2 c in
       let* order := getitem state "order" in
       let* attenuation := getitem state "attenuation" in
       let* rs := py_truediv attenuation (VNum (PInt 2)) in
       let* btype := getitem state "btype" in
       cheby2 order rs [low; high] btype (audio_sr mudabox)
     else
       let* order := getitem state "order" in
       let* attenuation := getitem state "attenuation" in
       let* rs := py_truediv attenuation (VNum (PInt 2)) in
       let* c := getitem state "cut_off" in
       let* btype := getitem state "btype" in
       cheby2 order rs [c] btype (audio_sr mudabox)) in
  let* y := sosfiltfilt sos (audio_y mudabox) in
  Ok (mkAudio (audio_sr mudabox) y).

End Audio.

Arguments mkAudio {Signal}.
Arguments audio_sr {Signal}.
Arguments audio_y {Signal}.
Arguments audio {Sos Signal}.

End AbstractFilter.

Module Filter.

Record t : Type := mk {
  btype : string;
  attenuation : pyval;
  cutoff : list pyval
}.

Definition is_tuple (v : pyval) : bool :=
  match v with VTuple _ => true | _ => false end.

Definition is_list (v : pyval) : bool :=
  match v with VList _ => true | _ => false end.

Definition len_is_2 (v : pyval) : bool :=
  match v with VList [_; _] | VTuple [_; _] => true | _ => false end.

(** [tuple(c)] *)
Definition tuple_of (v : pyval) : pyval :=
  match v with VList l => VTuple l | _ => v end.

Definition bandpass_msg : string :=
  "bandpass filter cutoff must be tuple or list of tuples".

Definition lowhigh_msg : string :=
  "low/high pass filter cutoff must be float or list of floats".

(** [Filter.__init__] *)
Definition init (btype : string) (attenuation : pyval) (cutoff : pyval)
    : result t :=
  if String.eqb btype "bandpass" then
    match cutoff with
    | VTuple _ => Ok (mk btype attenuation [cutoff])
    | VList l =>
        if forallb is_tuple l then Ok (mk btype attenuation l)
        else if forallb is_list l then
          if forallb len_is_2 l
          then Ok (mk btype attenuation (map tuple_of l))
          else Raise (ValueError bandpass_msg)
        else Raise (ValueError bandpass_msg)
    | _ => Raise (ValueError bandpass_msg)
    end
  else
    match cutoff with
    | VTuple _ => Raise (ValueError lowhigh_msg)
    | VList [] => Raise IndexError
    | VList (VTuple _ :: _) => Raise (ValueError lowhigh_msg)
    | _ =>
        let* c := np_atleast_1d_flatten_tolist cutoff in
        Ok (mk btype attenuation c)
    end.

Section States.

Variable cheb2ord :
  list pyval -> list pyval -> pyval -> pyval -> pyval -> result Z.

(** The three assignments after [state["cut_off"] = ...] and the
    [yield]. *)
Definition fill_and_yield (self : t) (state : nat)
    (order : result Z) (h : store) (continue : store -> trace) : trace :=
  match order with
  | Raise e => mkTrace [] h (Raised e)
  | Ok n =>
      let h := setitem state "order" (VNum (PInt n)) h in
      let h := setitem state "attenuation" (attenuation self) h in
      let h := setitem state "btype" (VStr (btype self)) h in
      yield state h (continue h)
  end.

(** [for low,high in self.cutoff: ...] *)
Fixpoint bandpass_loop (self : t) (fr : frame) (state : nat)
    (entries : list pyval) (h : store) : trace :=
  match entries with
  | [] => mkTrace [] h Finished
  | entry :: rest =>
      match unpack2 entry with
      | Raise e => mkTrace [] h (Raised e)
      | Ok (low, high) =>
          let fr := <["high" := high]> (<["low" := low]> fr) in
          match py_gt low high with
          | Raise e => mkTrace [] h (Raised e)
          | Ok true =>
              mkTrace [] h
                (Raised (ValueError
                   "cutoff_low must be smaller than cutoff_high"))
          | Ok false =>
              let h := setitem state "cut_off" (VTuple [low; high]) h in
              fill_and_yield self state
                (order_bandpass cheb2ord fr (attenuation self)) h
                (bandpass_loop self fr state rest)
          end
      end
  end.

(** [for freq in self.cutoff: ...] of the branch [btype == "low"] *)
Fixpoint low_loop (self : t) (fr : frame) (state : nat)
    (entries : list pyval) (h : store) : trace :=
  match entries with
  | [] => mkTrace [] h Finished
  | freq :: rest =>
      let fr := <["freq" := freq]> fr in
      match py_le freq (VNum (PInt 0)) with
      | Raise e => mkTrace [] h (Raised e)
      | Ok true =>
          mkTrace [] h
            (Raised (ValueError
               "cutoff frequency for lowpass filter must be strictly positive"))
      | Ok false =>
          let h := setitem state "cut_off" freq h in
          fill_and_yield self state
            (order_low cheb2ord fr (attenuation self)) h
            (low_loop self fr state rest)
      end
  end.

(** [freq <= 0 or freq >= state["nyquist"]] *)
Definition high_rejects (freq : pyval) (state : nat) (h : store)
    : result bool :=
  let* c1 := py_le freq (VNum (PInt 0)) in
  if c1 then Ok true
  else
    let* nyquist := state_getitem h state "nyquist" in
    py_ge freq nyquist.

(** [for freq in self.cutoff: ...] of the branch [btype == "high"] *)
Fixpoint high_loop (self : t) (fr : frame) (state : nat)
    (entries : list pyval) (h : store) : trace :=
  match entries with
  | [] => mkTrace [] h Finished
  | freq :: rest =>
      let fr := <["freq" := freq]> fr in
      match high_rejects freq state h with
      | Raise e => mkTrace [] h (Raised e)
      | Ok true =>
          mkTrace [] h
            (Raised (ValueError
               "cutoff frequency for high pass filter must be strictly positive and smaller than nyquist frequency"))
      | Ok false =>
          let h := setitem state "cut_off" freq h in
          fill_and_yield self state
            (order_high cheb2ord fr (attenuation self)) h
            (high_loop self fr state rest)
      end
  end.

(** [Filter.states] *)
Definition states (self : t) (jam : Jam) (h : store) : trace :=
  let fr : frame := {[ "fs" := VNum (sr jam) ]} in
  let '(state, h) := AbstractFilter.states jam h in
  if String.eqb (btype self) "bandpass" then
    bandpass_loop self fr state (cutoff self) h
  else if String.eqb (btype self) "low" then
    low_loop self fr state (cutoff self) h
  else if String.eqb (btype self) "high" then
    high_loop self fr state (cutoff self) h
  else mkTrace [] h Finished.

End States.

End Filter.

(** The checks shared by the constructors of the random generators:
    [if v <= 0: raise ValueError(msg)]. *)
Definition reject_nonpositive (v : pyval) (msg : string) : result unit :=
  let* c := py_le v (VNum (PInt 0)) in
  if c then Raise (ValueError msg) else Ok tt.

(** [if v is not None and v <= 0: raise ValueError(msg)] *)
Definition reject_nonpositive_unless_None (v : pyval) (msg : string)
    : result unit :=
  match v with
  | VNone => Ok tt
  | _ => reject_nonpositive v msg
  end.

Module RandomLPFilter.

Section Generator.

(** [_get_rng] of [muda.base] builds the random source from the [rng]
    argument; [normal g loc scale] is one call of
    [g.normal(loc=loc, scale=scale, size=None)], which returns the draw
    and advances the source. *)
Variables Seed Rng : Type.
Variable _get_rng : Seed -> result Rng.
Variable normal : Rng -> pynum -> pynum -> pynum * Rng.
Variable cheb2ord :
  list pyval -> list pyval -> pyval -> pyval -> pyval -> result Z.

Record t : Type := mk {
  n_samples : pyval;
  attenuation : pyval;
  sigma : pynum;
  rng : Seed;
  _rng : Rng;
  cutoff : pynum
}.

(** [RandomLPFilter.__init__] *)
Definition init (n_samples attenuation cutoff sigma : pyval) (rng : Seed)
    : result t :=
  let* _ := reject_nonpositive sigma "sigma must be strictly positive" in
  let* _ := reject_nonpositive n_samples
              "n_samples must be None or positive" in
  let* _ := (if is_float cutoff
             then reject_nonpositive cutoff
                    "cutoff frequency must be None or positive"
             else Ok tt) in
  let* _ := match cutoff with
            | VList l =>
                let* c := np_any_nonpositive l in
                if c
                then Raise (ValueError
                              "cutoff frequency must be None or positive")
                else Ok tt
            | _ => Ok tt
            end in
  let* _ := reject_nonpositive attenuation
              "attenuation must be None or positive" in
  let* sigma' := py_float sigma in
  let* g := _get_rng rng in
  let* cutoff' := py_float cutoff in
  Ok (mk n_samples attenuation sigma' rng g cutoff').

(** [for _ in range(self.n_samples): ...] *)
Fixpoint sample_loop (self : t) (fr : frame) (state : nat) (n : nat)
    (h : store) (g : Rng) : trace * Rng :=
  match n with
  | O => (mkTrace [] h Finished, g)
  | S n' =>
      let h := setitem state "btype" (VStr "low") h in
      match order_low cheb2ord fr (attenuation self) with
      | Raise e => (mkTrace [] h (Raised e), g)
      | Ok order =>
          let h := setitem state "order" (VNum (PInt order)) h in
          let h := setitem state "attenuation" (attenuation self) h in
          let '(draw, g) := normal g (cutoff self) (sigma self) in
          let h := setitem state "cut_off" (VNum draw) h in
          let '(rest, g) := sample_loop self fr state n' h g in
          (yield state h rest, g)
      end
  end.

(** [RandomLPFilter.states]: the frame binds [fs] and nothing else that
    the order estimate reads. *)
Definition states (self : t) (jam : Jam) (h : store) : trace * Rng :=
  let fr : frame := {[ "fs" := VNum (sr jam) ]} in
  let '(state, h) := AbstractFilter.states jam h in
  match py_range (n_samples self) with
  | Raise e => (mkTrace [] h (Raised e), _rng self)
  | Ok n => sample_loop self fr state n h (_rng self)
  end.

End Generator.

Arguments mk {Seed Rng}.
Arguments n_samples {Seed Rng}.
Arguments attenuation {Seed Rng}.
Arguments sigma {Seed Rng}.
Arguments rng {Seed Rng}.
Arguments _rng {Seed Rng}.
Arguments cutoff {Seed Rng}.
Arguments init {Seed Rng}.
Arguments sample_loop {Seed Rng}.
Arguments states {Seed Rng}.

End RandomLPFilter.

Module RandomHPFilter.

Section Generator.

Variables Seed Rng : Type.
Variable _get_rng : Seed -> result Rng.
Variable normal : Rng -> pynum -> pynum -> pynum * Rng.
Variable cheb2ord :
  list pyval -> list pyval -> pyval -> pyval -> pyval -> result Z.

Record t : Type := mk {
  n_samples : pyval;
  attenuation : pyval;
  sigma : pynum;
  rng : Seed;
  _rng : Rng;
  cutoff : pynum
}.

Definition cutoff_msg : string :=
  "high pass cutoff frequency must be strictly positive and lower than nyquist frequency".

(** [RandomHPFilter.__init__] *)
Definition init (n_samples attenuation cutoff sigma : pyval) (rng : Seed)
    : result t :=
  let* _ := reject_nonpositive sigma "sigma must be strictly positive" in
  let* _ := reject_nonpositive n_samples
              "n_samples must be None or positive" in
  let* _ := reject_nonpositive attenuation
              "attenuation must be None or positive" in
  let* _ := match cutoff with
            | VList _ => Raise (ValueError cutoff_msg)
            | _ => reject_nonpositive cutoff cutoff_msg
            end in
  let* sigma' := py_float sigma in
  let* g := _get_rng rng in
  let* cutoff' := py_float cutoff in
  Ok (mk n_samples attenuation sigma' rng g cutoff').

(** [for _ in range(self.n_samples): ...] *)
Fixpoint sample_loop (self : t) (fr : frame) (state : nat) (n : nat)
    (h : store) (g : Rng) : trace * Rng :=
  match n with
  | O => (mkTrace [] h Finished, g)
  | S n' =>
      let h := setitem state "btype" (VStr "high") h in
      match order_high cheb2ord fr (attenuation self) with
      | Raise e => (mkTrace [] h (Raised e), g)
      | Ok order =>
          let h := setitem state "order" (VNum (PInt order)) h in
          let h := setitem state "attenuation" (attenuation self) h in
          let '(draw, g) := normal g (cutoff self) (sigma self) in
          let h := setitem state "cut_off" (VNum draw) h in
          let '(rest, g) := sample_loop self fr state n' h g in
          (yield state h rest, g)
      end
  end.

(** [RandomHPFilter.states]: the frame binds no number at all. *)
Definition states (self : t) (jam : Jam) (h : store) : trace * Rng :=
  let fr : frame := ∅ in
  let '(state, h) := AbstractFilter.states jam h in
  match py_range (n_samples self) with
  | Raise e => (mkTrace [] h (Raised e), _rng self)
  | Ok n => sample_loop self fr state n h (_rng self)
  end.

End Generator.

Arguments mk {Seed Rng}.
Arguments n_samples {Seed Rng}.
Arguments attenuation {Seed Rng}.
Arguments sigma {Seed Rng}.
Arguments rng {Seed Rng}.
Arguments _rng {Seed Rng}.
Arguments cutoff {Seed Rng}.
Arguments init {Seed Rng}.
Arguments sample_loop {Seed Rng}.
Arguments states {Seed Rng}.

End RandomHPFilter.

Module RandomBPFilter.

Section Generator.

Variables Seed Rng : Type.
Variable _get_rng : Seed -> result Rng.
Variable normal : Rng -> pynum -> pynum -> pynum * Rng.
Variable cheb2ord :
  list pyval -> list pyval -> pyval -> pyval -> pyval -> result Z.

Record t : Type := mk {
  n_samples : pyval;
  attenuation : pyval;
  sigma : pynum;
  rng : Seed;
  _rng : Rng;
  cutoff_low : pynum;
  cutoff_high : pynum
}.

(** [RandomBPFilter.__init__] *)
Definition init (n_samples attenuation cutoff_low cutoff_high sigma : pyval)
    (rng : Seed) : result t :=
  let* _ := reject_nonpositive_unless_None sigma
              "sigma must be strictly positive" in
  let* _ := reject_nonpositive_unless_None n_samples
              "n_samples must be None or positive" in
  let* _ := reject_nonpositive_unless_None attenuation
              "attenuation must be None or positive" in
  let* c := py_ge cutoff_low cutoff_high in
  if c then
    Raise (ValueError
      "band pass higher cutoff frequency must be strictly greater than lower cutoff frequency")
  else
    let* c1 := py_le cutoff_low (VNum (PInt 0)) in
    let* c2 := (if c1 then Ok true
                else py_le cutoff_high (VNum (PInt 0))) in
    if c2 then
      Raise (ValueError
        "band pass cutoff frequency must be strictly greater than zero")
    else
      let* sigma' := py_float sigma in
      let* g := _get_rng rng in
      let* low' := py_float cutoff_low in
      let* high' := py_float cutoff_high in
      Ok (mk n_samples attenuation sigma' rng g low' high').

(** [while high <= low: high = ...; low = ...], with fuel. *)
Fixpoint redraw (fuel : nat) (self : t) (high low : pynum) (g : Rng)
    : option (pynum * pynum * Rng) :=
  if num_leb high low then
    match fuel with
    | O => None
    | S fuel' =>
        let '(high, g) := normal g (cutoff_high self) (sigma self) in
        let '(low, g) := normal g (cutoff_low self) (sigma self) in
        redraw fuel' self high low g
    end
  else Some (high, low, g).

(** [for _ in range(self.n_samples): ...] *)
Fixpoint sample_loop (fuel : nat) (self : t) (fr : frame) (state : nat)
    (n : nat) (h : store) (g : Rng) : trace * Rng :=
  match n with
  | O => (mkTrace [] h Finished, g)
  | S n' =>
      let '(high, g) := normal g (cutoff_high self) (sigma self) in
      let '(low, g) := normal g (cutoff_low self) (sigma self) in
      match redraw fuel self high low g with
      | None => (mkTrace [] h OutOfFuel, g)
      | Some (high, low, g) =>
          let fr := <["low" := VNum low]> (<["high" := VNum high]> fr) in
          let h := setitem state "btype" (VStr "bandpass") h in
          let h := setitem state "cut_off"
                     (VTuple [VNum low; VNum high]) h in
          match order_bandpass cheb2ord fr (attenuation self) with
          | Raise e => (mkTrace [] h (Raised e), g)
          | Ok order =>
              let h := setitem state "order" (VNum (PInt order)) h in
              let h := setitem state "attenuation" (attenuation self) h in
              let '(rest, g) := sample_loop fuel self fr state n' h g in
              (yield state h rest, g)
          end
      end
  end.

(** [RandomBPFilter.states]: the frame binds [high] and [low], not
    [fs]. *)
Definition states (fuel : nat) (self : t) (jam : Jam) (h : store)
    : trace * Rng :=
  let fr : frame := ∅ in
  let '(state, h) := AbstractFilter.states jam h in
  match py_range (n_samples self) with
  | Raise e => (mkTrace [] h (Raised e), _rng self)
  | Ok n => sample_loop fuel self fr state n h (_rng self)
  end.

End Generator.

Arguments mk {Seed Rng}.
Arguments n_samples {Seed Rng}.
Arguments attenuation {Seed Rng}.
Arguments sigma {Seed Rng}.
Arguments rng {Seed Rng}.
Arguments _rng {Seed Rng}.
Arguments cutoff_low {Seed Rng}.
Arguments cutoff_high {Seed Rng}.
Arguments init {Seed Rng}.
Arguments sample_loop {Seed Rng}.
Arguments states {Seed Rng}.
Arguments redraw {Seed Rng}.

End RandomBPFilter.

(** ** Vocabulary of the statements *)


(** A descriptor with its five fields, as the generators build it. *)
Definition descriptor (btype : string) (cut_off : pyval) (order : Z)
    (attenuation : pyval) (nyquist : pynum) : gmap string pyval :=
  <["btype" := VStr btype]>
    (<["attenuation" := attenuation]>
       (<["order" := VNum (PInt order)]>
          (<["cut_off" := cut_off]>
             (<["nyquist" := VNum nyquist]> ∅)))).

(** An observation is in-band when the classifier returns its value and
    [True]. *)
Definition in_band (midi_to_hz : pynum -> pynum)
    (note_to_hz : string -> result pynum) (datatype : string)
    (state : gmap string pyval) (o : Observation pyval) : Prop :=
  checkfreqinband midi_to_hz note_to_hz (value o) state datatype
    = Ok (value o, true).

(** [o'] is what the pitch-class adapter emitted for the in-band [o]. *)
Definition class_emitted (midi_to_hz : pynum -> pynum)
    (note_to_hz : string -> result pynum) (state : gmap string pyval)
    (o o' : Observation ClassValue) : Prop :=
  checkfreqinband midi_to_hz note_to_hz (VStr (class_token (value o))) state
    "pitchclass" = Ok (VStr (class_token (value o)), true) /\
  time o' = time o /\ duration o' = duration o /\
  confidence o' = confidence o.

(** The field [k] of a yielded descriptor, read in the store of its yield. *)
Definition field (k : string) (y : nat * store) : option pyval :=
  match y.2 !! y.1 with
  | Some d => d !! k
  | None => None
  end.

(** The object [state] exists in the store and its [nyquist] is [v]. *)
Definition has_nyquist (state : nat) (v : pyval) (h : store) : Prop :=
  exists d, h !! state = Some d /\ d !! "nyquist" = Some v.

(** Every yield of a run is the object [state], with [nyquist] equal to [v]. *)
Definition yields_only (state : nat) (v : pyval) (tr : trace) : Prop :=
  Forall (fun y => y.1 = state /\ field "nyquist" y = Some v) (yielded tr).

(** The field [k] of the [i]-th yielded descriptor, read when the [j]-th
    descriptor is yielded. *)
Definition field_at (tr : trace) (i j : nat) (k : string) : option pyval :=
  match yielded tr !! i, yielded tr !! j with
  | Some yi, Some yj => field k (yi.1, yj.2)
  | _, _ => None
  end.


(** The domain constraint of section 4.4 on one declared entry: a pair with
    [low < high] for bandpass, [0 < freq] for low-pass, [0 < freq < nyquist]
    for high-pass, where [nyquist] is half the sample rate [fs]. *)
Definition valid_entry (btype : string) (fs : pynum) (e : pyval) : Prop :=
  match e with
  | VTuple [VNum lo; VNum hi] =>
      btype = "bandpass" /\ (num_val lo < num_val hi)%Q
  | VNum f =>
      (btype = "low" /\ (0 < num_val f)%Q) \/
      (btype = "high" /\ (0 < num_val f)%Q /\
       (num_val f < num_val fs / 2)%Q)
  | _ => False
  end.


(** A run that ended normally and yielded, for each entry, a descriptor with
    that entry as [cut_off]. *)
Definition ran (tr : trace) (entries : list pyval) : Prop :=
  ending_of tr = Finished /\
  Forall2 (fun y e => field "cut_off" y = Some e) (yielded tr) entries.

(** The band decision of the hz and midi adapters as a boolean; an exception
    of the classifier counts as out-of-band. *)
Definition in_bandb (midi_to_hz : pynum -> pynum)
    (note_to_hz : string -> result pynum) (datatype : string)
    (state : gmap string pyval) (o : Observation pyval) : bool :=
  match checkfreqinband midi_to_hz note_to_hz (value o) state datatype with
  | Ok (_, true) => true
  | _ => false
  end.

(** An entry that the checks of [Filter.states] reject: a pair with
    [low > high] for bandpass, [freq <= 0] for low-pass, [freq <= 0] or
    [freq >= nyquist] for high-pass, where [nyquist] is half the sample rate
    [fs]. *)
Definition rejected_entry (btype : string) (fs : pynum) (e : pyval) : Prop :=
  match e with
  | VTuple [VNum lo; VNum hi] =>
      btype = "bandpass" /\ (num_val hi < num_val lo)%Q
  | VNum f =>
      (btype = "low" /\ (num_val f <= 0)%Q) \/
      (btype = "high" /\
       ((num_val f <= 0)%Q \/ (num_val fs / 2 <= num_val f)%Q))
  | _ => False
  end.

(** A run that ended in [e] after it yielded, for each entry, a descriptor
    with that entry as [cut_off]. *)
Definition ended_with (tr : trace) (entries : list pyval) (e : ending) : Prop :=
  ending_of tr = e /\
  Forall2 (fun y e => field "cut_off" y = Some e) (yielded tr) entries.

(** The fields of a yielded descriptor that do not depend on the entry. *)
Definition filled (btype : string) (attenuation nyquist : pyval)
    (y : nat * store) : Prop :=
  field "btype" y = Some (VStr btype) /\
  field "attenuation" y = Some attenuation /\
  field "nyquist" y = Some nyquist /\
  (exists n, field "order" y = Some (VNum (PInt n))) /\
  is_Some (field "cut_off" y).

(** The store [h'] has one object more than [h] and holds the objects of
    [h] unchanged. *)
Definition extends_by_one (h h' : store) : Prop :=
  length h' = S (length h) /\
  forall i, (i < length h)%nat -> h' !! i = h !! i.

(** The critical frequencies that [AbstractFilter.audio] passes to the
    filter design for a [cut_off]: the two bounds of a pair, or the scalar. *)
Definition critical (cut_off : pyval) : list pyval :=
  match cut_off with
  | VTuple [lo; hi] => [lo; hi]
  | _ => [cut_off]
  end.

(** * Properties *)

Lemma num_leb_false a b : num_leb a b = false <-> (num_val b < num_val a)%Q.
Proof.
  unfold num_leb.
  destruct (Qle_bool (num_val a) (num_val b)) eqn:E.
  - apply Qle_bool_iff in E. split; [discriminate |].
    intros H. exfalso. exact (Qlt_not_le _ _ H E).
  - split; [| reflexivity]. intros _. apply Qnot_le_lt.
    intros H. apply Qle_bool_iff in H. congruence.
Qed.

Lemma num_geb_false a b : num_geb a b = false <-> (num_val a < num_val b)%Q.
Proof. unfold num_geb. apply (num_leb_false b a). Qed.

(** ** The classifier on a frequency in Hz *)

Lemma passband_bounds_spec (state : gmap string pyval) lo hi :
  spec_passband state = Some (lo, hi) ->
  passband_bounds state = Ok (VNum lo, VNum hi).
Proof.
  intros Hpb. unfold spec_passband in Hpb. unfold passband_bounds, getitem.
  destruct (state !! "btype") as [[| |b| |]|] eqn:Eb; try discriminate.
  destruct (state !! "cut_off") as [[|c| |t|]|] eqn:Ec; try discriminate.
  - simpl. destruct (String.eqb b "bandpass") eqn:E1.
    + apply String.eqb_eq in E1. subst b. discriminate.
    + destruct (String.eqb b "low") eqn:E2.
      * simpl. congruence.
      * destruct (String.eqb b "high"); [| discriminate].
        destruct (state !! "nyquist") as [[|n| | |]|]; try discriminate.
        simpl. congruence.
  - destruct t as [|[|a| | |] [|[|b'| | |] [|? ?]]]; try discriminate.
    simpl. destruct (String.eqb b "bandpass"); [| discriminate].
    simpl. congruence.
Qed.

Lemma checkfreqinband_hz_returns mth nth (state : gmap string pyval) lo hi f :
  spec_passband state = Some (lo, hi) ->
  exists v b, checkfreqinband mth nth (VNum f) state "hz" = Ok (v, b).
Proof.
  intros Hpb. unfold checkfreqinband. simpl.
  rewrite (passband_bounds_spec state lo hi Hpb). simpl.
  destruct (num_leb f lo); [eexists _, _; reflexivity |].
  destruct (num_geb f hi); eexists _, _; reflexivity.
Qed.

(** C1. For a descriptor with passband [(lo, hi)], [checkfreqinband] on a
    frequency [f] in Hz returns [(f, True)] exactly when [lo < f < hi], and
    [(None, False)] when [f] equals a bound or lies outside them. *)
Theorem checkfreqinband_hz_passband
    (midi_to_hz : pynum -> pynum) (note_to_hz : string -> result pynum)
    (state : gmap string pyval) (lo hi f : pynum) :
  spec_passband state = Some (lo, hi) ->
  (strictly_between lo f hi ->
     checkfreqinband midi_to_hz note_to_hz (VNum f) state "hz"
       = Ok (VNum f, true)) /\
  (~ strictly_between lo f hi ->
     checkfreqinband midi_to_hz note_to_hz (VNum f) state "hz"
       = Ok (VNone, false)) /\
  (checkfreqinband midi_to_hz note_to_hz (VNum f) state "hz"
     = Ok (VNum f, true) <-> strictly_between lo f hi).
Proof.
  intros Hpb.
  unfold checkfreqinband, strictly_between. simpl.
  rewrite (passband_bounds_spec state lo hi Hpb). simpl.
  destruct (num_leb f lo) eqn:E1.
  - assert (~ (num_val lo < num_val f)%Q).
    { intros H. apply num_leb_false in H. congruence. }
    repeat split; try tauto; try discriminate.
  - apply num_leb_false in E1.
    destruct (num_geb f hi) eqn:E2.
    + assert (~ (num_val f < num_val hi)%Q).
      { intros H. apply num_geb_false in H. congruence. }
      repeat split; try tauto; try discriminate.
    + apply num_geb_false in E2. repeat split; try tauto.
Qed.

Lemma checkfreqinband_hz_passband_witness :
  checkfreqinband (fun m => m) (fun _ => Raise LibraryError)
    (VNum (PFloat 2000))
    (descriptor "low" (VNum (PInt 4000)) 8 (VNum (PFloat 60)) (PFloat 22050))
    "hz"
  = Ok (VNum (PFloat 2000), true).
Proof.
  refine (proj1
    (checkfreqinband_hz_passband (fun m => m) (fun _ => Raise LibraryError)
       (descriptor "low" (VNum (PInt 4000)) 8 (VNum (PFloat 60)) (PFloat 22050))
       (PInt 0) (PInt 4000) (PFloat 2000) _) _).
  - vm_compute. reflexivity.
  - split; reflexivity.
Defined.

(** The three band types at and around their bounds. *)
Example checkfreqinband_bounds :
  let classify := checkfreqinband (fun m => m) (fun _ => Raise LibraryError) in
  let low := descriptor "low" (VNum (PInt 4000)) 8 (VNum (PFloat 60))
               (PFloat 22050) in
  let high := descriptor "high" (VNum (PInt 4000)) 8 (VNum (PFloat 60))
                (PFloat 22050) in
  let band := descriptor "bandpass"
                (VTuple [VNum (PInt 500); VNum (PInt 2000)]) 8
                (VNum (PFloat 60)) (PFloat 22050) in
  classify (VNum (PInt 4000)) low "hz" = Ok (VNone, false) /\
  classify (VNum (PInt 0)) low "hz" = Ok (VNone, false) /\
  classify (VNum (PInt 3999)) low "hz" = Ok (VNum (PInt 3999), true) /\
  classify (VNum (PInt 4000)) high "hz" = Ok (VNone, false) /\
  classify (VNum (PFloat 22050)) high "hz" = Ok (VNone, false) /\
  classify (VNum (PInt 4001)) high "hz" = Ok (VNum (PInt 4001), true) /\
  classify (VNum (PInt 500)) band "hz" = Ok (VNone, false) /\
  classify (VNum (PInt 2000)) band "hz" = Ok (VNone, false) /\
  classify (VNum (PInt 501)) band "hz" = Ok (VNum (PInt 501), true).
Proof. vm_compute. repeat split. Qed.


(** ** The classifier returns its argument *)

Lemma checkfreqinband_true_returns_freq mth nth freq state datatype v :
  checkfreqinband mth nth freq state datatype = Ok (v, true) -> v = freq.
Proof.
  unfold checkfreqinband.
  destruct (convert_frequency mth nth freq datatype) as [bound|]; simpl;
    [| discriminate].
  destruct (passband_bounds state) as [[low high]|]; simpl; [| discriminate].
  destruct bound as [f|]; simpl; [| discriminate].
  destruct (py_le f low) as [[]|]; simpl; try discriminate.
  destruct (py_ge f high) as [[]|]; simpl; try discriminate.
  congruence.
Qed.

(** ** Strings: the last character of a token *)

Lemma str_last_String c s :
  s <> EmptyString -> str_last (String c s) = str_last s.
Proof. intros H. destruct s; [exfalso; apply H; reflexivity | reflexivity]. Qed.

Lemma append_nonempty s1 s2 :
  s2 <> EmptyString -> String.append s1 s2 <> EmptyString.
Proof. intros H. destruct s1; [exact H | discriminate]. Qed.

Lemma str_last_append s1 s2 :
  s2 <> EmptyString -> str_last (String.append s1 s2) = str_last s2.
Proof.
  intros Hne. induction s1 as [|c s1 IH]; [reflexivity |].
  change (String.append (String c s1) s2) with (String c (String.append s1 s2)).
  rewrite str_last_String; [exact IH | apply append_nonempty, Hne].
Qed.




(** ** The contour adapter *)





(** ** The hz, midi and pitch-class adapters *)

Lemma filter_scalar_loop_sublist mth nth datatype state data :
  forall annotation, exists kept,
    fst (filter_scalar_loop mth nth datatype data state annotation)
      = (annotation ++ kept)%list /\
    kept `sublist_of` data /\
    Forall (in_band mth nth datatype state) kept /\
    (snd (filter_scalar_loop mth nth datatype data state annotation) = None ->
     forall o, o ∈ data -> in_band mth nth datatype state o -> o ∈ kept).
Proof.
  induction data as [|o data IH]; intros annotation.
  - exists []. simpl. rewrite app_nil_r.
    repeat split; [constructor | constructor |].
    intros _ o Ho. inversion Ho.
  - simpl.
    destruct (checkfreqinband mth nth (value o) state datatype)
      as [[new_freq voice]|e] eqn:E.
    + destruct voice.
      * pose proof (checkfreqinband_true_returns_freq _ _ _ _ _ _ E) as ->.
        destruct (IH (annotation ++
          [mkObs (time o) (duration o) (confidence o) (value o)])%list)
          as (kept & Hrun & Hsub & Hall & Hcomp).
        exists (o :: kept). rewrite Hrun, <- app_assoc.
        destruct o as [t d c v]. simpl in *.
        repeat split.
        -- apply sublist_skip, Hsub.
        -- constructor; [exact E | exact Hall].
        -- intros Hnone o' Ho' Hin. apply elem_of_cons in Ho' as [-> | Ho'].
           ++ apply elem_of_cons. left. reflexivity.
           ++ apply elem_of_cons. right. exact (Hcomp Hnone o' Ho' Hin).
      * destruct (IH annotation) as (kept & Hrun & Hsub & Hall & Hcomp).
        exists kept. rewrite Hrun.
        repeat split; [apply sublist_cons, Hsub | exact Hall |].
        intros Hnone o' Ho' Hin. apply elem_of_cons in Ho' as [-> | Ho'].
        -- unfold in_band in Hin. rewrite E in Hin. discriminate.
        -- exact (Hcomp Hnone o' Ho' Hin).
    + exists []. simpl. rewrite app_nil_r.
      repeat split; [apply sublist_nil_l | constructor | discriminate].
Qed.

Lemma filter_class_loop_sublist mth nth state data :
  forall annotation, exists kept out,
    fst (filter_class_loop mth nth data state annotation)
      = (annotation ++ out)%list /\
    kept `sublist_of` data /\
    Forall2 (class_emitted mth nth state) kept out.
Proof.
  induction data as [|o data IH]; intros annotation.
  - exists [], []. simpl. rewrite app_nil_r.
    repeat split; constructor.
  - simpl.
    destruct (checkfreqinband mth nth (VStr (class_token (value o))) state
                "pitchclass") as [[new_freq voice]|e] eqn:E.
    + destruct voice.
      * pose proof (checkfreqinband_true_returns_freq _ _ _ _ _ _ E) as ->.
        destruct (class_value_of (VStr (class_token (value o)))) as [v|e'].
        -- destruct (IH (annotation ++
             [mkObs (time o) (duration o) (confidence o) v])%list)
             as (kept & out & Hrun & Hsub & Hall).
           exists (o :: kept), (mkObs (time o) (duration o) (confidence o) v :: out).
           rewrite Hrun, <- app_assoc.
           repeat split; [apply sublist_skip, Hsub |].
           constructor; [| exact Hall].
           unfold class_emitted. simpl. tauto.
        -- exists [], []. simpl. rewrite app_nil_r.
           repeat split; [apply sublist_nil_l | constructor].
      * destruct (IH annotation) as (kept & out & Hrun & Hsub & Hall).
        exists kept, out. rewrite Hrun.
        repeat split; [apply sublist_cons, Hsub | exact Hall].
    + exists [], []. simpl. rewrite app_nil_r.
      repeat split; [apply sublist_nil_l | constructor].
Qed.

(** C6. Whatever the input and the descriptor, and also when the run ends in
    an exception, the hz and midi adapters leave in the annotation a
    subsequence of the popped observations, each one classified in-band with
    its own value returned; when the run ends normally every in-band
    observation is there.  The pitch-class adapter leaves one observation per
    element of a subsequence of the popped observations, each element
    classified in-band, with [time], [duration] and [confidence] kept.  In all
    three the output is at most as long as the input. *)
Theorem adapters_emit_in_band_only mth nth (state : gmap string pyval) :
  (forall datatype data,
     let r := filter_scalar_loop mth nth datatype data state [] in
     fst r `sublist_of` data /\
     Forall (in_band mth nth datatype state) (fst r) /\
     (length (fst r) <= length data)%nat /\
     (snd r = None ->
      forall o, o ∈ data -> in_band mth nth datatype state o -> o ∈ fst r)) /\
  (forall data, filter_hz mth nth data state
                = filter_scalar_loop mth nth "hz" data state []) /\
  (forall data, filter_midi mth nth data state
                = filter_scalar_loop mth nth "midi" data state []) /\
  (forall data,
     let r := filter_class mth nth data state in
     (exists kept,
        kept `sublist_of` data /\
        Forall2 (class_emitted mth nth state) kept (fst r)) /\
     (length (fst r) <= length data)%nat).
Proof.
  split; [| split; [reflexivity | split; [reflexivity |]]].
  - intros datatype data. cbv zeta.
    destruct (filter_scalar_loop_sublist mth nth datatype state data [])
      as (kept & Hrun & Hsub & Hall & Hcomp).
    rewrite Hrun. simpl.
    split; [exact Hsub |]. split; [exact Hall |].
    split; [apply sublist_length, Hsub | exact Hcomp].
  - intros data. cbv zeta. unfold filter_class.
    destruct (filter_class_loop_sublist mth nth state data [])
      as (kept & out & Hrun & Hsub & Hall).
    rewrite Hrun. simpl. split.
    + exists kept. split; [exact Hsub | exact Hall].
    + rewrite <- (Forall2_length _ _ _ Hall). apply sublist_length, Hsub.
Qed.

(** The spec's end-to-end example: a low-pass descriptor at 4000 Hz keeps the
    2000 Hz observation of a [pitch_hz] annotation and drops the 6000 Hz one. *)
Example filter_hz_lowpass_4000 :
  filter_hz (fun m => m) (fun _ => Raise LibraryError)
    [mkObs (VNum (PFloat 0)) (VNum (PFloat 1)) VNone (VNum (PFloat 2000));
     mkObs (VNum (PFloat 1)) (VNum (PFloat 1)) VNone (VNum (PFloat 6000))]
    (descriptor "low" (VNum (PInt 4000)) 8 (VNum (PFloat 60)) (PFloat 22050))
  = ([mkObs (VNum (PFloat 0)) (VNum (PFloat 1)) VNone (VNum (PFloat 2000))],
     None).
Proof. vm_compute. reflexivity. Qed.


(** The decoding on tokens: a one-digit octave is read back, a two-digit one
    leaves its first digit in the tonic. *)
Example class_value_of_Csharp4 :
  class_value_of (VStr (class_token (mkClass "C#" 4))) = Ok (mkClass "C#" 4).
Proof. reflexivity. Qed.

Example class_value_of_C10 :
  class_value_of (VStr (class_token (mkClass "C" 10))) = Ok (mkClass "C1" 0).
Proof. reflexivity. Qed.

(** ** The store under [setitem] *)

Lemma setitem_lookup state k v (h : store) d :
  h !! state = Some d -> setitem state k v h !! state = Some (<[k := v]> d).
Proof.
  intros H. unfold setitem. rewrite list_lookup_alter_eq, H. reflexivity.
Qed.

Lemma setitem_has_nyquist state k v nyq (h : store) :
  k <> "nyquist" -> has_nyquist state nyq h ->
  has_nyquist state nyq (setitem state k v h).
Proof.
  intros Hk (d & Hd & Hn). exists (<[k := v]> d). split.
  - apply setitem_lookup, Hd.
  - rewrite lookup_insert_ne; [exact Hn | exact Hk].
Qed.

Lemma has_nyquist_field state nyq (h : store) :
  has_nyquist state nyq h -> field "nyquist" (state, h) = Some nyq.
Proof. intros (d & Hd & Hn). unfold field. simpl. rewrite Hd. exact Hn. Qed.

Lemma AbstractFilter_states_has_nyquist jam (h : store) :
  AbstractFilter.states jam h
    = (length h, (h ++ [{[ "nyquist" := VNum (num_div (sr jam) (PInt 2)) ]}])%list)
  /\ has_nyquist (length h) (VNum (num_div (sr jam) (PInt 2)))
       (h ++ [{[ "nyquist" := VNum (num_div (sr jam) (PInt 2)) ]}])%list.
Proof.
  split; [reflexivity |]. eexists. split.
  - rewrite lookup_app_r, Nat.sub_diag; [reflexivity | lia].
  - apply lookup_singleton_eq.
Qed.

(** ** Every yield of [Filter.states] is the one state dictionary *)

Lemma fill_and_yield_only cheb2ord_result self state nyq (h : store) continue :
  has_nyquist state nyq h ->
  (forall h', has_nyquist state nyq h' -> yields_only state nyq (continue h')) ->
  yields_only state nyq
    (Filter.fill_and_yield self state cheb2ord_result h continue).
Proof.
  intros Hn Hk. unfold Filter.fill_and_yield.
  destruct cheb2ord_result as [n|e]; [| constructor].
  assert (Hn' : has_nyquist state nyq
            (setitem state "btype" (VStr (Filter.btype self))
               (setitem state "attenuation" (Filter.attenuation self)
                  (setitem state "order" (VNum (PInt n)) h)))).
  { repeat apply setitem_has_nyquist; try discriminate. exact Hn. }
  unfold yields_only, yield. simpl. constructor.
  - split; [reflexivity | apply has_nyquist_field, Hn'].
  - apply Hk, Hn'.
Qed.

Ltac loop_yields_only IH :=
  apply fill_and_yield_only;
  [ apply setitem_has_nyquist; [discriminate | assumption]
  | intros h' Hh'; apply IH, Hh' ].

Lemma bandpass_loop_only cheb2ord self state nyq entries :
  forall fr (h : store), has_nyquist state nyq h ->
  yields_only state nyq (Filter.bandpass_loop cheb2ord self fr state entries h).
Proof.
  induction entries as [|entry rest IH]; intros fr h Hn; simpl;
    [constructor |].
  destruct (unpack2 entry) as [[low high]|e]; [| constructor].
  destruct (py_gt low high) as [[]|e]; [constructor | | constructor].
  loop_yields_only IH.
Qed.

Lemma low_loop_only cheb2ord self state nyq entries :
  forall fr (h : store), has_nyquist state nyq h ->
  yields_only state nyq (Filter.low_loop cheb2ord self fr state entries h).
Proof.
  induction entries as [|freq rest IH]; intros fr h Hn; simpl;
    [constructor |].
  destruct (py_le freq (VNum (PInt 0))) as [[]|e];
    [constructor | | constructor].
  loop_yields_only IH.
Qed.

Lemma high_loop_only cheb2ord self state nyq entries :
  forall fr (h : store), has_nyquist state nyq h ->
  yields_only state nyq (Filter.high_loop cheb2ord self fr state entries h).
Proof.
  induction entries as [|freq rest IH]; intros fr h Hn; simpl;
    [constructor |].
  destruct (Filter.high_rejects freq state h) as [[]|e];
    [constructor | | constructor].
  loop_yields_only IH.
Qed.

(** C9 (as amended). Every descriptor that one call of [Filter.states] yields
    is the same dictionary object, the one [AbstractFilter.states] created:
    its [nyquist] is [sr/2] at every yield, and an earlier yielded descriptor
    read when a later one is yielded has the fields of the later one. *)
Theorem Filter_states_yields_one_shared_dict cheb2ord self jam (h : store) :
  let tr := Filter.states cheb2ord self jam h in
  Forall (fun y => y.1 = length h /\
                   field "nyquist" y = Some (VNum (num_div (sr jam) (PInt 2))))
    (yielded tr) /\
  forall i j k,
    (i < length (yielded tr))%nat ->
    field_at tr i j k = field_at tr j j k.
Proof.
  cbv zeta.
  assert (H : yields_only (length h) (VNum (num_div (sr jam) (PInt 2)))
                (Filter.states cheb2ord self jam h)).
  { unfold Filter.states.
    destruct (AbstractFilter_states_has_nyquist jam h) as [-> Hn].
    destruct (String.eqb (Filter.btype self) "bandpass");
      [apply bandpass_loop_only, Hn |].
    destruct (String.eqb (Filter.btype self) "low");
      [apply low_loop_only, Hn |].
    destruct (String.eqb (Filter.btype self) "high");
      [apply high_loop_only, Hn | constructor]. }
  split; [exact H |].
  intros i j k Hi. unfold yields_only in H.
  rewrite Forall_lookup in H. unfold field_at.
  destruct (lookup_lt_is_Some_2 _ _ Hi) as [yi Hyi]. rewrite Hyi.
  destruct (yielded (Filter.states cheb2ord self jam h) !! j) as [yj|] eqn:Hyj;
    [| reflexivity].
  destruct (H i yi Hyi) as [-> _]. destruct (H j yj Hyj) as [<- _].
  reflexivity.
Qed.

(** C9 (counterexample). [Filter(btype="low", cutoff=[1000, 2000])] on a
    44100 Hz session yields twice.  The first descriptor has [cut_off] 1000
    when it is yielded; once the second is produced, the first reads 2000. *)
Lemma Filter_states_overwrites_yielded_descriptor :
  let self :=
    Filter.mk "low" (VNum (PFloat 60)) [VNum (PInt 1000); VNum (PInt 2000)] in
  let tr := Filter.states (fun _ _ _ _ _ => Ok 8) self (mkJam (PInt 44100)) [] in
  Filter.init "low" (VNum (PFloat 60))
    (VList [VNum (PInt 1000); VNum (PInt 2000)]) = Ok self /\
  length (yielded tr) = 2%nat /\
  field_at tr 0 0 "cut_off" = Some (VNum (PInt 1000)) /\
  field_at tr 0 1 "cut_off" = Some (VNum (PInt 2000)) /\
  field_at tr 0 1 "cut_off" <> field_at tr 0 0 "cut_off".
Proof.
  vm_compute. repeat split; discriminate.
Qed.

(** ** One descriptor per declared cutoff *)

Section FilterRun.

Variable cheb2ord :
  list pyval -> list pyval -> pyval -> pyval -> pyval -> result Z.
Variable self : Filter.t.
Variable fs : pynum.
Variable state : nat.

Hypothesis estimator_returns :
  forall wp ws, exists n,
    cheb2ord wp ws (VNum (PInt 3)) (Filter.attenuation self) (VNum fs) = Ok n.

Lemma setitem_cut_off nyquist c (h : store) :
  has_nyquist state nyquist h ->
  exists d, setitem state "cut_off" c h !! state = Some d /\
            d !! "cut_off" = Some c /\ d !! "nyquist" = Some nyquist.
Proof.
  intros (d & Hd & Hn). exists (<["cut_off" := c]> d).
  split; [apply setitem_lookup, Hd |].
  split; [apply lookup_insert_eq |].
  rewrite lookup_insert_ne by discriminate. exact Hn.
Qed.

Lemma fill_and_yield_ran nyquist wp ws (h : store) c continue rest :
  (exists d, h !! state = Some d /\ d !! "cut_off" = Some c /\
             d !! "nyquist" = Some nyquist) ->
  (forall h', has_nyquist state nyquist h' -> ran (continue h') rest) ->
  ran (Filter.fill_and_yield self state
         (cheb2ord wp ws (VNum (PInt 3)) (Filter.attenuation self) (VNum fs))
         h continue)
      (c :: rest).
Proof.
  intros (d & Hd & Hc & Hn) Hk. unfold Filter.fill_and_yield.
  destruct (estimator_returns wp ws) as [n ->].
  pose proof (setitem_lookup state "order" (VNum (PInt n)) h d Hd) as H1.
  pose proof (setitem_lookup state "attenuation" (Filter.attenuation self)
                _ _ H1) as H2.
  pose proof (setitem_lookup state "btype" (VStr (Filter.btype self))
                _ _ H2) as H3.
  destruct (Hk (setitem state "btype" (VStr (Filter.btype self))
                  (setitem state "attenuation" (Filter.attenuation self)
                     (setitem state "order" (VNum (PInt n)) h))))
    as [Hend Hall].
  { eexists. split; [exact H3 |].
    rewrite !lookup_insert_ne by discriminate. exact Hn. }
  split; [exact Hend |]. simpl. constructor; [| exact Hall].
  unfold field. simpl. rewrite H3.
  rewrite !lookup_insert_ne by discriminate. exact Hc.
Qed.

Lemma order_low_eval (fr : frame) f :
  fr !! "fs" = Some (VNum fs) ->
  order_low cheb2ord (<["freq" := VNum f]> fr) (Filter.attenuation self)
  = cheb2ord [VNum f] [VNum (num_add f (num_div fs (PInt 10)))]
      (VNum (PInt 3)) (Filter.attenuation self) (VNum fs).
Proof.
  intros Hfs. unfold order_low, read_name.
  rewrite lookup_insert_eq, lookup_insert_ne, Hfs by discriminate.
  reflexivity.
Qed.

Lemma order_high_eval (fr : frame) f :
  fr !! "fs" = Some (VNum fs) ->
  order_high cheb2ord (<["freq" := VNum f]> fr) (Filter.attenuation self)
  = cheb2ord [VNum f] [VNum (num_sub f (num_div fs (PInt 10)))]
      (VNum (PInt 3)) (Filter.attenuation self) (VNum fs).
Proof.
  intros Hfs. unfold order_high, read_name.
  rewrite lookup_insert_eq, lookup_insert_ne, Hfs by discriminate.
  reflexivity.
Qed.

Lemma order_bandpass_eval (fr : frame) lo hi :
  fr !! "fs" = Some (VNum fs) ->
  order_bandpass cheb2ord
    (<["high" := VNum hi]> (<["low" := VNum lo]> fr)) (Filter.attenuation self)
  = cheb2ord [VNum lo; VNum hi]
      [VNum (num_sub lo (num_div fs (PInt 10)));
       VNum (num_add hi (num_div fs (PInt 10)))]
      (VNum (PInt 3)) (Filter.attenuation self) (VNum fs).
Proof.
  intros Hfs. unfold order_bandpass, read_name.
  rewrite lookup_insert_eq.
  rewrite (lookup_insert_ne _ "high" "low") by discriminate.
  rewrite lookup_insert_eq.
  rewrite !lookup_insert_ne by discriminate. rewrite Hfs.
  reflexivity.
Qed.

Lemma num_leb_zero_false f : (0 < num_val f)%Q -> num_leb f (PInt 0) = false.
Proof. intros H. apply num_leb_false. exact H. Qed.

Lemma low_loop_ran nyquist entries :
  Forall (fun e => exists f, e = VNum f /\ (0 < num_val f)%Q) entries ->
  forall (fr : frame) (h : store),
    fr !! "fs" = Some (VNum fs) -> has_nyquist state nyquist h ->
    ran (Filter.low_loop cheb2ord self fr state entries h) entries.
Proof.
  induction 1 as [|e rest (f & -> & Hpos) _ IH]; intros fr h Hfs Hn.
  - split; [reflexivity | constructor].
  - simpl. rewrite (num_leb_zero_false f Hpos).
    rewrite (order_low_eval fr f Hfs).
    apply (fill_and_yield_ran nyquist);
      [apply setitem_cut_off, Hn |].
    intros h' Hh'. apply IH; [| exact Hh'].
    rewrite lookup_insert_ne by discriminate. exact Hfs.
Qed.

Lemma high_loop_ran nyquist entries :
  Forall (fun e => exists f, e = VNum f /\ (0 < num_val f)%Q /\
                             (num_val f < num_val nyquist)%Q) entries ->
  forall (fr : frame) (h : store),
    fr !! "fs" = Some (VNum fs) -> has_nyquist state (VNum nyquist) h ->
    ran (Filter.high_loop cheb2ord self fr state entries h) entries.
Proof.
  induction 1 as [|e rest (f & -> & Hpos & Hlt) _ IH];
    intros fr h Hfs Hn.
  - split; [reflexivity | constructor].
  - simpl. pose proof Hn as (d & Hd & Hnyq).
    unfold Filter.high_rejects, state_getitem, getitem. simpl.
    rewrite (num_leb_zero_false f Hpos). simpl. rewrite Hd, Hnyq. simpl.
    rewrite (proj2 (num_geb_false f nyquist) Hlt).
    rewrite (order_high_eval fr f Hfs).
    apply (fill_and_yield_ran (VNum nyquist));
      [apply setitem_cut_off, Hn |].
    intros h' Hh'. apply IH; [| exact Hh'].
    rewrite lookup_insert_ne by discriminate. exact Hfs.
Qed.

Lemma bandpass_loop_ran nyquist entries :
  Forall (fun e => exists lo hi, e = VTuple [VNum lo; VNum hi] /\
                                 (num_val lo < num_val hi)%Q) entries ->
  forall (fr : frame) (h : store),
    fr !! "fs" = Some (VNum fs) -> has_nyquist state nyquist h ->
    ran (Filter.bandpass_loop cheb2ord self fr state entries h) entries.
Proof.
  induction 1 as [|e rest (lo & hi & -> & Hlt) _ IH]; intros fr h Hfs Hn.
  - split; [reflexivity | constructor].
  - simpl. unfold num_gtb.
    assert (Hle : Qle_bool (num_val lo) (num_val hi) = true).
    { apply Qle_bool_iff, Qlt_le_weak, Hlt. }
    rewrite Hle. simpl.
    rewrite (order_bandpass_eval _ lo hi Hfs).
    apply (fill_and_yield_ran nyquist);
      [apply setitem_cut_off, Hn |].
    intros h' Hh'. apply IH; [| exact Hh'].
    rewrite !lookup_insert_ne by discriminate. exact Hfs.
Qed.

End FilterRun.









(** The same on a bandpass generator declared with two pairs. *)
Example Filter_states_bandpass_two_pairs :
  let tr :=
    Filter.states (fun _ _ _ _ _ => Ok 8)
      (Filter.mk "bandpass" (VNum (PFloat 60))
         [VTuple [VNum (PInt 500); VNum (PInt 2000)];
          VTuple [VNum (PInt 1000); VNum (PInt 4000)]])
      (mkJam (PInt 44100)) [] in
  ending_of tr = Finished /\
  field_at tr 0 0 "cut_off" = Some (VTuple [VNum (PInt 500); VNum (PInt 2000)]) /\
  field_at tr 1 1 "cut_off" = Some (VTuple [VNum (PInt 1000); VNum (PInt 4000)]) /\
  field_at tr 2 2 "cut_off" = None.
Proof. vm_compute. repeat split. Qed.

(** [Filter(btype="high", cutoff=-1)] is constructed and fails when [states]
    reaches the entry. *)
Example Filter_high_negative_cutoff :
  Filter.init "high" (VNum (PFloat 60)) (VNum (PInt (-1)))
    = Ok (Filter.mk "high" (VNum (PFloat 60)) [VNum (PInt (-1))]) /\
  let tr :=
    Filter.states (fun _ _ _ _ _ => Ok 8)
      (Filter.mk "high" (VNum (PFloat 60)) [VNum (PInt (-1))])
      (mkJam (PInt 44100)) [] in
  yielded tr = [] /\
  ending_of tr =
    Raised (ValueError
      "cutoff frequency for high pass filter must be strictly positive and smaller than nyquist frequency").
Proof. vm_compute. repeat split. Qed.

(** ** A [btype] that is none of the three *)

Lemma Filter_init_btype btype attenuation cutoff self :
  Filter.init btype attenuation cutoff = Ok self -> Filter.btype self = btype.
Proof.
  unfold Filter.init, np_atleast_1d_flatten_tolist. intros H.
  repeat (match type of H with
          | context [match ?x with _ => _ end] => destruct x
          end; simpl in H; try discriminate);
    injection H as <-; reflexivity.
Qed.

(** C10. With a [btype] other than ["low"], ["high"] and ["bandpass"],
    [Filter.__init__] parses [cutoff] as it does for ["low"]: it accepts and
    rejects the same arguments and keeps the same entries, so a scalar is
    accepted.  On every generator so constructed and every session [states]
    ends normally without yielding anything. *)
Theorem Filter_unknown_btype_yields_nothing
    cheb2ord btype attenuation cutoff jam (h : store) :
  btype <> "low" -> btype <> "high" -> btype <> "bandpass" ->
  Filter.init btype attenuation cutoff
    = match Filter.init "low" attenuation cutoff with
      | Ok s => Ok (Filter.mk btype (Filter.attenuation s) (Filter.cutoff s))
      | Raise e => Raise e
      end /\
  (forall n, Filter.init btype attenuation (VNum n)
             = Ok (Filter.mk btype attenuation [VNum n])) /\
  forall self,
    Filter.init btype attenuation cutoff = Ok self ->
    yielded (Filter.states cheb2ord self jam h) = [] /\
    ending_of (Filter.states cheb2ord self jam h) = Finished.
Proof.
  intros Hlow Hhigh Hbp.
  assert (Ebp : String.eqb btype "bandpass" = false)
    by (apply String.eqb_neq, Hbp).
  assert (Elow : String.eqb btype "low" = false)
    by (apply String.eqb_neq, Hlow).
  assert (Ehigh : String.eqb btype "high" = false)
    by (apply String.eqb_neq, Hhigh).
  split; [| split].
  - unfold Filter.init. rewrite Ebp. simpl.
    destruct cutoff as [|n|s|t|[|[] l]]; try reflexivity;
      destruct (np_atleast_1d_flatten_tolist _); reflexivity.
  - intros n. unfold Filter.init. rewrite Ebp. reflexivity.
  - intros self Hinit.
    pose proof (Filter_init_btype _ _ _ _ Hinit) as Hbt.
    unfold Filter.states. simpl. rewrite Hbt, Ebp, Elow, Ehigh.
    split; reflexivity.
Qed.

Lemma Filter_unknown_btype_yields_nothing_witness :
  yielded (Filter.states (fun _ _ _ _ _ => Ok 8)
             (Filter.mk "notch" (VNum (PFloat 60)) [VNum (PInt 4000)])
             (mkJam (PInt 44100)) []) = [].
Proof.
  refine (proj1 (proj2 (proj2
    (Filter_unknown_btype_yields_nothing (fun _ _ _ _ _ => Ok 8)
       "notch" (VNum (PFloat 60)) (VNum (PInt 4000)) (mkJam (PInt 44100)) []
       _ _ _)) (Filter.mk "notch" (VNum (PFloat 60)) [VNum (PInt 4000)]) _));
    [discriminate | discriminate | discriminate | reflexivity].
Defined.

(** ** The random generators *)

(** The order estimate of [RandomLPFilter.states] reads [freq], which its
    frame does not bind. *)
Lemma order_low_unbound_freq cheb2ord (fs attenuation : pyval) :
  order_low cheb2ord {[ "fs" := fs ]} attenuation = Raise (NameError "freq").
Proof. reflexivity. Qed.

(** The order estimate of [RandomHPFilter.states] reads [freq] in a frame
    that binds no number. *)
Lemma order_high_unbound_freq cheb2ord (attenuation : pyval) :
  order_high cheb2ord ∅ attenuation = Raise (NameError "freq").
Proof. reflexivity. Qed.

(** The order estimate of [RandomBPFilter.states] reads [fs] in a frame that
    binds only [high] and [low]. *)
Lemma order_bandpass_unbound_fs cheb2ord (low high attenuation : pyval) :
  order_bandpass cheb2ord (<["low" := low]> (<["high" := high]> ∅)) attenuation
  = Raise (NameError "fs").
Proof.
  unfold order_bandpass, read_name.
  rewrite lookup_insert_eq.
  rewrite (lookup_insert_ne _ "low" "high") by discriminate.
  rewrite lookup_insert_eq. simpl.
  rewrite !lookup_insert_ne by discriminate. rewrite lookup_empty.
  reflexivity.
Qed.

Section RandomRuns.

Context {Seed Rng : Type}.
Variable normal : Rng -> pynum -> pynum -> pynum * Rng.
Variable cheb2ord :
  list pyval -> list pyval -> pyval -> pyval -> pyval -> result Z.

(** C3. One call of [RandomBPFilter.states] never yields a descriptor.  With
    a positive [n_samples] the first iteration draws, leaves the rejection
    loop if it ever does, stores [btype] and [cut_off] and then raises
    [NameError] on [fs] while it evaluates the order estimate. *)
Theorem RandomBPFilter_states_yields_nothing
    fuel (self : RandomBPFilter.t Seed Rng) jam (h : store) :
  let tr := (RandomBPFilter.states normal cheb2ord fuel self jam h).1 in
  yielded tr = [] /\
  match py_range (RandomBPFilter.n_samples self) with
  | Raise e => ending_of tr = Raised e
  | Ok O => ending_of tr = Finished
  | Ok (S _) =>
      ending_of tr = Raised (NameError "fs") \/ ending_of tr = OutOfFuel
  end.
Proof.
  cbv zeta. unfold RandomBPFilter.states.
  destruct (AbstractFilter.states jam h) as [state h0].
  destruct (py_range (RandomBPFilter.n_samples self)) as [[|n]|e];
    [split; reflexivity | | split; reflexivity].
  simpl.
  destruct (normal (RandomBPFilter._rng self) _ _) as [high g1].
  destruct (normal g1 _ _) as [low g2].
  destruct (RandomBPFilter.redraw normal fuel self high low g2)
    as [[[high' low'] g3]|]; [| split; [reflexivity | right; reflexivity]].
  rewrite order_bandpass_unbound_fs.
  split; [reflexivity | left; reflexivity].
Qed.

(** C4. One call of [RandomLPFilter.states] or [RandomHPFilter.states]
    never yields a descriptor and never draws from the random source.  With
    a positive [n_samples] the first iteration raises [NameError] on [freq]
    while it evaluates the order estimate. *)
Theorem RandomLPFilter_RandomHPFilter_states_yield_nothing
    (lp : RandomLPFilter.t Seed Rng)
    (hp : RandomHPFilter.t Seed Rng) jam (h : store) :
  let rl := RandomLPFilter.states normal cheb2ord lp jam h in
  let rh := RandomHPFilter.states normal cheb2ord hp jam h in
  (yielded rl.1 = [] /\ rl.2 = RandomLPFilter._rng lp /\
   match py_range (RandomLPFilter.n_samples lp) with
   | Raise e => ending_of rl.1 = Raised e
   | Ok O => ending_of rl.1 = Finished
   | Ok (S _) => ending_of rl.1 = Raised (NameError "freq")
   end) /\
  (yielded rh.1 = [] /\ rh.2 = RandomHPFilter._rng hp /\
   match py_range (RandomHPFilter.n_samples hp) with
   | Raise e => ending_of rh.1 = Raised e
   | Ok O => ending_of rh.1 = Finished
   | Ok (S _) => ending_of rh.1 = Raised (NameError "freq")
   end).
Proof.
  cbv zeta. unfold RandomLPFilter.states, RandomHPFilter.states.
  destruct (AbstractFilter.states jam h) as [state h0].
  split.
  - destruct (py_range (RandomLPFilter.n_samples lp)) as [[|n]|e];
      repeat split.
  - destruct (py_range (RandomHPFilter.n_samples hp)) as [[|n]|e];
      repeat split.
Qed.

End RandomRuns.

(** The spec's example [RandomBPFilter(n_samples=5, cutoff_low=500,
    cutoff_high=2000, sigma=10, rng=42)]: it is constructed, and [states]
    raises before the first yield.  The random source of the example returns
    the mean, so the rejection loop is left at once. *)
Example RandomBPFilter_spec_example :
  let _get_rng := fun seed : Z => Ok seed in
  let normal := fun (g : Z) (loc scale : pynum) => (loc, g) in
  let self :=
    RandomBPFilter.mk (VNum (PInt 5)) (VNum (PFloat 60)) (PFloat 10) 42 42
      (PFloat 500) (PFloat 2000) in
  RandomBPFilter.init _get_rng (VNum (PInt 5)) (VNum (PFloat 60))
    (VNum (PInt 500)) (VNum (PInt 2000)) (VNum (PInt 10)) 42 = Ok self /\
  let tr :=
    (RandomBPFilter.states normal (fun _ _ _ _ _ => Ok 8) 0 self
       (mkJam (PInt 44100)) []).1 in
  yielded tr = [] /\ ending_of tr = Raised (NameError "fs") /\
  field "cut_off" (0%nat, final tr)
    = Some (VTuple [VNum (PFloat 500); VNum (PFloat 2000)]).
Proof. vm_compute. repeat split. Qed.

(** ** Construction of the random generators *)

(** C8 (the code at the failing input). [RandomLPFilter.__init__] checks
    [cutoff <= 0] only when [cutoff] is a float.  An int cutoff, whatever its
    sign, passes every check: the generator is constructed with
    [float(cutoff)], here with the other parameters at their defaults. *)
Theorem RandomLPFilter_init_accepts_any_int_cutoff
    {Seed Rng : Type} (_get_rng : Seed -> result Rng) (z : Z) (rng : Seed) :
  RandomLPFilter.init _get_rng (VNum (PInt 3)) (VNum (PFloat 60))
    (VNum (PInt z)) (VNum (PFloat 1)) rng
  = match _get_rng rng with
    | Ok g =>
        Ok (RandomLPFilter.mk (VNum (PInt 3)) (VNum (PFloat 60)) (PFloat 1)
              rng g (PFloat (inject_Z z)))
    | Raise e => Raise e
    end.
Proof.
  unfold RandomLPFilter.init. simpl.
  destruct (_get_rng rng); reflexivity.
Qed.

Example RandomLPFilter_negative_int_cutoff :
  RandomLPFilter.init (fun seed : Z => Ok seed) (VNum (PInt 3))
    (VNum (PFloat 60)) (VNum (PInt (-1))) (VNum (PFloat 1)) 0
  = Ok (RandomLPFilter.mk (VNum (PInt 3)) (VNum (PFloat 60)) (PFloat 1) 0 0
          (PFloat (-1))).
Proof. reflexivity. Qed.

Lemma num_leb_true a b : (num_val a <= num_val b)%Q -> num_leb a b = true.
Proof. intros H. apply Qle_bool_iff, H. Qed.

Lemma reject_nonpositive_raises n msg :
  (num_val n <= 0)%Q ->
  reject_nonpositive (VNum n) msg = Raise (ValueError msg).
Proof.
  intros H. unfold reject_nonpositive. simpl.
  rewrite (num_leb_true n (PInt 0) H). reflexivity.
Qed.

Lemma reject_nonpositive_cases n msg :
  reject_nonpositive (VNum n) msg = Raise (ValueError msg) \/
  reject_nonpositive (VNum n) msg = Ok tt.
Proof.
  unfold reject_nonpositive. simpl. destruct (num_leb n (PInt 0)); auto.
Qed.

(** X24. The checks that the constructors do make.  On numeric parameters,
    [RandomHPFilter.__init__] raises [ValueError] as soon as one of [sigma],
    [n_samples], [attenuation], [cutoff] is not positive. *)
Lemma RandomHPFilter_init_rejects {Seed Rng : Type}
    (_get_rng : Seed -> result Rng) (n_samples attenuation cutoff sigma : pynum)
    (rng : Seed) :
  (num_val sigma <= 0)%Q \/ (num_val n_samples <= 0)%Q \/
  (num_val attenuation <= 0)%Q \/ (num_val cutoff <= 0)%Q ->
  exists msg,
    RandomHPFilter.init _get_rng (VNum n_samples) (VNum attenuation)
      (VNum cutoff) (VNum sigma) rng = Raise (ValueError msg).
Proof.
  intros H. unfold RandomHPFilter.init.
  destruct (reject_nonpositive_cases sigma "sigma must be strictly positive")
    as [-> | Hs]; [eexists; reflexivity |].
  destruct H as [H | H];
    [rewrite (reject_nonpositive_raises _ _ H) in Hs; discriminate |].
  rewrite Hs. simpl.
  destruct (reject_nonpositive_cases n_samples
              "n_samples must be None or positive")
    as [-> | Hn]; [eexists; reflexivity |].
  destruct H as [H | H];
    [rewrite (reject_nonpositive_raises _ _ H) in Hn; discriminate |].
  rewrite Hn. simpl.
  destruct (reject_nonpositive_cases attenuation
              "attenuation must be None or positive")
    as [-> | Ha]; [eexists; reflexivity |].
  destruct H as [H | H];
    [rewrite (reject_nonpositive_raises _ _ H) in Ha; discriminate |].
  rewrite Ha. simpl.
  rewrite (reject_nonpositive_raises _ _ H). eexists; reflexivity.
Qed.

(** X25. [RandomLPFilter.__init__] does the same for [sigma], [n_samples],
    [attenuation] and for a float [cutoff]. *)
Lemma RandomLPFilter_init_rejects {Seed Rng : Type}
    (_get_rng : Seed -> result Rng) (n_samples attenuation sigma : pynum)
    (cutoff : pyval) (rng : Seed) :
  (num_val sigma <= 0)%Q \/ (num_val n_samples <= 0)%Q \/
  (num_val attenuation <= 0)%Q \/
  (exists q, cutoff = VNum (PFloat q) /\ (q <= 0)%Q) ->
  (exists n, cutoff = VNum n) ->
  exists msg,
    RandomLPFilter.init _get_rng (VNum n_samples) (VNum attenuation)
      cutoff (VNum sigma) rng = Raise (ValueError msg).
Proof.
  intros H [c ->]. unfold RandomLPFilter.init.
  destruct (reject_nonpositive_cases sigma "sigma must be strictly positive")
    as [-> | Hs]; [eexists; reflexivity |].
  destruct H as [H | H];
    [rewrite (reject_nonpositive_raises _ _ H) in Hs; discriminate |].
  rewrite Hs. simpl.
  destruct (reject_nonpositive_cases n_samples
              "n_samples must be None or positive")
    as [-> | Hn]; [eexists; reflexivity |].
  destruct H as [H | H];
    [rewrite (reject_nonpositive_raises _ _ H) in Hn; discriminate |].
  rewrite Hn. simpl.
  destruct c as [z|q]; simpl.
  - destruct H as [H | (q & Hq & _)]; [| discriminate].
    rewrite (reject_nonpositive_raises _ _ H). eexists; reflexivity.
  - destruct (reject_nonpositive_cases (PFloat q)
                "cutoff frequency must be None or positive")
      as [-> | Hc]; [eexists; reflexivity |].
    rewrite Hc. simpl.
    destruct H as [H | (q' & Hq & Hle)].
    + rewrite (reject_nonpositive_raises _ _ H). eexists; reflexivity.
    + injection Hq as ->.
      rewrite (reject_nonpositive_raises (PFloat q') _ Hle) in Hc.
      discriminate.
Qed.

(** X26. [RandomBPFilter.__init__] rejects a non-positive [sigma],
    [n_samples], [attenuation] or cutoff, and [cutoff_low >= cutoff_high]. *)
Lemma RandomBPFilter_init_rejects {Seed Rng : Type}
    (_get_rng : Seed -> result Rng)
    (n_samples attenuation cutoff_low cutoff_high sigma : pynum) (rng : Seed) :
  (num_val sigma <= 0)%Q \/ (num_val n_samples <= 0)%Q \/
  (num_val attenuation <= 0)%Q \/
  (num_val cutoff_high <= num_val cutoff_low)%Q \/
  (num_val cutoff_low <= 0)%Q \/ (num_val cutoff_high <= 0)%Q ->
  exists msg,
    RandomBPFilter.init _get_rng (VNum n_samples) (VNum attenuation)
      (VNum cutoff_low) (VNum cutoff_high) (VNum sigma) rng
    = Raise (ValueError msg).
Proof.
  intros H. unfold RandomBPFilter.init, reject_nonpositive_unless_None.
  destruct (reject_nonpositive_cases sigma "sigma must be strictly positive")
    as [-> | Hs]; [eexists; reflexivity |].
  destruct H as [H | H];
    [rewrite (reject_nonpositive_raises _ _ H) in Hs; discriminate |].
  rewrite Hs. simpl.
  destruct (reject_nonpositive_cases n_samples
              "n_samples must be None or positive")
    as [-> | Hn]; [eexists; reflexivity |].
  destruct H as [H | H];
    [rewrite (reject_nonpositive_raises _ _ H) in Hn; discriminate |].
  rewrite Hn. simpl.
  destruct (reject_nonpositive_cases attenuation
              "attenuation must be None or positive")
    as [-> | Ha]; [eexists; reflexivity |].
  destruct H as [H | H];
    [rewrite (reject_nonpositive_raises _ _ H) in Ha; discriminate |].
  rewrite Ha. simpl.
  destruct (num_geb cutoff_low cutoff_high) eqn:Ege;
    [eexists; reflexivity |].
  destruct H as [H | H].
  { apply (num_leb_true cutoff_high cutoff_low) in H.
    unfold num_geb in Ege. unfold num_leb in H. congruence. }
  destruct (num_leb cutoff_low (PInt 0)) eqn:El; simpl;
    [eexists; reflexivity |].
  destruct H as [H | H].
  { apply (num_leb_true cutoff_low (PInt 0)) in H. congruence. }
  rewrite (num_leb_true cutoff_high (PInt 0) H). eexists; reflexivity.
Qed.

(** * Further properties of the classifier *)

(** X1. On a MIDI number the decision is taken on the converted frequency
    [midi_to_hz m], and what is returned in-band is the MIDI number itself,
    not the frequency in Hz. *)
Theorem checkfreqinband_midi_decides
    (midi_to_hz : pynum -> pynum) (note_to_hz : string -> result pynum)
    (state : gmap string pyval) (lo hi m : pynum) :
  spec_passband state = Some (lo, hi) ->
  (strictly_between lo (midi_to_hz m) hi ->
     checkfreqinband midi_to_hz note_to_hz (VNum m) state "midi"
       = Ok (VNum m, true)) /\
  (~ strictly_between lo (midi_to_hz m) hi ->
     checkfreqinband midi_to_hz note_to_hz (VNum m) state "midi"
       = Ok (VNone, false)).
Proof.
  intros Hpb. unfold checkfreqinband, strictly_between. simpl.
  rewrite (passband_bounds_spec state lo hi Hpb). simpl.
  destruct (num_leb (midi_to_hz m) lo) eqn:E1.
  - split; [| reflexivity]. intros [H _].
    apply num_leb_false in H. congruence.
  - apply num_leb_false in E1.
    destruct (num_geb (midi_to_hz m) hi) eqn:E2.
    + split; [| reflexivity]. intros [_ H].
      apply num_geb_false in H. congruence.
    + apply num_geb_false in E2. split; [reflexivity | tauto].
Qed.

Lemma checkfreqinband_midi_decides_witness :
  checkfreqinband (fun _ => PFloat 440) (fun _ => Raise LibraryError)
    (VNum (PInt 69))
    (descriptor "low" (VNum (PInt 4000)) 8 (VNum (PFloat 60)) (PFloat 22050))
    "midi"
  = Ok (VNum (PInt 69), true).
Proof.
  refine (proj1
    (checkfreqinband_midi_decides (fun _ => PFloat 440)
       (fun _ => Raise LibraryError)
       (descriptor "low" (VNum (PInt 4000)) 8 (VNum (PFloat 60)) (PFloat 22050))
       (PInt 0) (PInt 4000) (PInt 69) _) _).
  - vm_compute. reflexivity.
  - split; reflexivity.
Defined.

(** X2. On a note name the decision is taken on [note_to_hz s] and the note
    name itself is returned in-band.  When [note_to_hz] raises, its exception
    is what the classifier raises, whatever the state holds: the conversion
    comes before any access to the state. *)
Theorem checkfreqinband_pitchclass_decides
    (midi_to_hz : pynum -> pynum) (note_to_hz : string -> result pynum)
    (state : gmap string pyval) (s : string) :
  (forall lo hi hz,
     spec_passband state = Some (lo, hi) -> note_to_hz s = Ok hz ->
     (strictly_between lo hz hi ->
        checkfreqinband midi_to_hz note_to_hz (VStr s) state "pitchclass"
          = Ok (VStr s, true)) /\
     (~ strictly_between lo hz hi ->
        checkfreqinband midi_to_hz note_to_hz (VStr s) state "pitchclass"
          = Ok (VNone, false))) /\
  (forall e,
     note_to_hz s = Raise e ->
     checkfreqinband midi_to_hz note_to_hz (VStr s) state "pitchclass"
       = Raise e).
Proof.
  split.
  - intros lo hi hz Hpb Hhz.
    unfold checkfreqinband, convert_frequency, strictly_between.
    cbn [String.eqb Ascii.eqb Bool.eqb]. rewrite Hhz. simpl.
    rewrite (passband_bounds_spec state lo hi Hpb). simpl.
    destruct (num_leb hz lo) eqn:E1.
    + split; [| reflexivity]. intros [H _].
      apply num_leb_false in H. congruence.
    + apply num_leb_false in E1.
      destruct (num_geb hz hi) eqn:E2.
      * split; [| reflexivity]. intros [_ H].
        apply num_geb_false in H. congruence.
      * apply num_geb_false in E2. split; [reflexivity | tauto].
  - intros e He. unfold checkfreqinband, convert_frequency.
    cbn [String.eqb Ascii.eqb Bool.eqb]. rewrite He. reflexivity.
Qed.

(** X3. A state whose [btype] is neither ["bandpass"] nor ["low"] (any other
    string, or no string at all) is classified as a high-pass: the passband is
    [(cut_off, nyquist)]. *)
Theorem checkfreqinband_other_btype_is_highpass
    (midi_to_hz : pynum -> pynum) (note_to_hz : string -> result pynum)
    (state : gmap string pyval) (b : pyval) (c n f : pynum) :
  state !! "btype" = Some b ->
  eq_str b "bandpass" = false -> eq_str b "low" = false ->
  state !! "cut_off" = Some (VNum c) -> state !! "nyquist" = Some (VNum n) ->
  (strictly_between c f n ->
     checkfreqinband midi_to_hz note_to_hz (VNum f) state "hz"
       = Ok (VNum f, true)) /\
  (~ strictly_between c f n ->
     checkfreqinband midi_to_hz note_to_hz (VNum f) state "hz"
       = Ok (VNone, false)).
Proof.
  intros Hb Hbp Hlow Hc Hn.
  unfold checkfreqinband, passband_bounds, getitem, strictly_between. simpl.
  rewrite Hb. simpl. rewrite Hbp, Hlow, Hn, Hc. simpl.
  destruct (num_leb f c) eqn:E1.
  - split; [| reflexivity]. intros [H _].
    apply num_leb_false in H. congruence.
  - apply num_leb_false in E1.
    destruct (num_geb f n) eqn:E2.
    + split; [| reflexivity]. intros [_ H].
      apply num_geb_false in H. congruence.
    + apply num_geb_false in E2. split; [reflexivity | tauto].
Qed.

Lemma checkfreqinband_other_btype_is_highpass_witness :
  checkfreqinband (fun m => m) (fun _ => Raise LibraryError)
    (VNum (PInt 5000))
    (descriptor "notch" (VNum (PInt 4000)) 8 (VNum (PFloat 60)) (PFloat 22050))
    "hz"
  = Ok (VNum (PInt 5000), true).
Proof.
  refine (proj1
    (checkfreqinband_other_btype_is_highpass (fun m => m)
       (fun _ => Raise LibraryError)
       (descriptor "notch" (VNum (PInt 4000)) 8 (VNum (PFloat 60))
          (PFloat 22050))
       (VStr "notch") (PInt 4000) (PFloat 22050) (PInt 5000) _ _ _ _ _) _);
    try (vm_compute; reflexivity).
  split; reflexivity.
Defined.

(** X4. With a unit other than ["midi"], ["hz"] and ["pitchclass"] the local
    [frequency] is never bound: on a descriptor with a passband the classifier
    raises [UnboundLocalError], whatever [freq] is. *)
Theorem checkfreqinband_unknown_unit
    (midi_to_hz : pynum -> pynum) (note_to_hz : string -> result pynum)
    (state : gmap string pyval) (lo hi : pynum) (freq : pyval)
    (datatype : string) :
  datatype <> "midi" -> datatype <> "hz" -> datatype <> "pitchclass" ->
  spec_passband state = Some (lo, hi) ->
  checkfreqinband midi_to_hz note_to_hz freq state datatype
    = Raise (UnboundLocalError "frequency").
Proof.
  intros H1 H2 H3 Hpb. unfold checkfreqinband, convert_frequency.
  rewrite (proj2 (String.eqb_neq _ _) H1), (proj2 (String.eqb_neq _ _) H2),
    (proj2 (String.eqb_neq _ _) H3). simpl.
  rewrite (passband_bounds_spec state lo hi Hpb). reflexivity.
Qed.

Lemma checkfreqinband_unknown_unit_witness :
  checkfreqinband (fun m => m) (fun _ => Raise LibraryError)
    (VNum (PInt 2000))
    (descriptor "low" (VNum (PInt 4000)) 8 (VNum (PFloat 60)) (PFloat 22050))
    "khz"
  = Raise (UnboundLocalError "frequency").
Proof.
  refine (checkfreqinband_unknown_unit (fun m => m)
            (fun _ => Raise LibraryError)
            (descriptor "low" (VNum (PInt 4000)) 8 (VNum (PFloat 60))
               (PFloat 22050))
            (PInt 0) (PInt 4000) (VNum (PInt 2000)) "khz" _ _ _ _);
    try discriminate.
  vm_compute. reflexivity.
Defined.

(** X5. Whatever the arguments, a returned pair is [(freq, True)] or
    [(None, False)]: the classifier never returns a converted or altered
    value, and never a value together with [False]. *)
Theorem checkfreqinband_result_shape
    (midi_to_hz : pynum -> pynum) (note_to_hz : string -> result pynum)
    (freq : pyval) (state : gmap string pyval) (datatype : string)
    (v : pyval) (b : bool) :
  checkfreqinband midi_to_hz note_to_hz freq state datatype = Ok (v, b) ->
  (b = true /\ v = freq) \/ (b = false /\ v = VNone).
Proof.
  unfold checkfreqinband.
  destruct (convert_frequency midi_to_hz note_to_hz freq datatype)
    as [bound|]; simpl; [| discriminate].
  destruct (passband_bounds state) as [[low high]|]; simpl; [| discriminate].
  destruct bound as [f|]; simpl; [| discriminate].
  destruct (py_le f low) as [[]|]; simpl; try discriminate.
  - intros H. injection H as <- <-. right. split; reflexivity.
  - destruct (py_ge f high) as [[]|]; simpl; try discriminate;
      intros H; injection H as <- <-; [right | left]; split; reflexivity.
Qed.

Lemma checkfreqinband_result_shape_witness :
  (true = true /\ VNum (PInt 2000) = VNum (PInt 2000)) \/
  (true = false /\ VNum (PInt 2000) = VNone).
Proof.
  refine (checkfreqinband_result_shape (fun m => m)
            (fun _ => Raise LibraryError) (VNum (PInt 2000))
            (descriptor "low" (VNum (PInt 4000)) 8 (VNum (PFloat 60))
               (PFloat 22050))
            "hz" (VNum (PInt 2000)) true _).
  vm_compute. reflexivity.
Defined.

(** X6. A descriptor whose upper bound does not exceed its lower bound (a
    bandpass pair with [low >= high], a high-pass cutoff at or above
    [nyquist], a low-pass cutoff at or below 0) has an empty passband: every
    frequency is classified out-of-band. *)
Theorem checkfreqinband_empty_passband
    (midi_to_hz : pynum -> pynum) (note_to_hz : string -> result pynum)
    (state : gmap string pyval) (lo hi f : pynum) :
  spec_passband state = Some (lo, hi) ->
  (num_val hi <= num_val lo)%Q ->
  checkfreqinband midi_to_hz note_to_hz (VNum f) state "hz"
    = Ok (VNone, false).
Proof.
  intros Hpb Hle. unfold checkfreqinband. simpl.
  rewrite (passband_bounds_spec state lo hi Hpb). simpl.
  destruct (num_leb f lo) eqn:E1; [reflexivity |].
  apply num_leb_false in E1. unfold num_geb.
  rewrite (proj2 (Qle_bool_iff (num_val hi) (num_val f))
             (Qle_trans _ _ _ Hle (Qlt_le_weak _ _ E1))).
  reflexivity.
Qed.

Lemma checkfreqinband_empty_passband_witness :
  checkfreqinband (fun m => m) (fun _ => Raise LibraryError)
    (VNum (PInt 1000))
    (descriptor "bandpass" (VTuple [VNum (PInt 1000); VNum (PInt 1000)]) 8
       (VNum (PFloat 60)) (PFloat 22050))
    "hz"
  = Ok (VNone, false).
Proof.
  refine (checkfreqinband_empty_passband (fun m => m)
            (fun _ => Raise LibraryError)
            (descriptor "bandpass"
               (VTuple [VNum (PInt 1000); VNum (PInt 1000)]) 8
               (VNum (PFloat 60)) (PFloat 22050))
            (PInt 1000) (PInt 1000) (PInt 1000) _ _).
  - vm_compute. reflexivity.
  - vm_compute. discriminate.
Defined.

(** * Further properties of the adapters *)

Lemma filter_scalar_loop_returns mth nth datatype state data :
  Forall (fun o => exists r,
            checkfreqinband mth nth (value o) state datatype = Ok r) data ->
  forall annotation,
    filter_scalar_loop mth nth datatype data state annotation
    = ((annotation ++ List.filter (in_bandb mth nth datatype state) data)%list,
       None).
Proof.
  induction 1 as [|o data [[v b] Hr] _ IH]; intros annotation; simpl.
  - rewrite app_nil_r. reflexivity.
  - unfold in_bandb at 1. rewrite Hr. destruct b.
    + pose proof (checkfreqinband_true_returns_freq _ _ _ _ _ _ Hr) as ->.
      rewrite IH, <- app_assoc. destruct o; reflexivity.
    + apply IH.
Qed.

Lemma filter_scalar_loop_normal mth nth datatype state data :
  forall annotation,
    (filter_scalar_loop mth nth datatype data state annotation).2 = None ->
    Forall (fun o => exists r,
              checkfreqinband mth nth (value o) state datatype = Ok r) data.
Proof.
  induction data as [|o data IH]; intros annotation H; [constructor |].
  simpl in H.
  destruct (checkfreqinband mth nth (value o) state datatype)
    as [[v b]|e] eqn:E; [| discriminate].
  constructor; [eexists; exact E |].
  destruct b; eapply IH; exact H.
Qed.

Lemma filter_filter_same {A : Type} (p : A -> bool) (l : list A) :
  List.filter p (List.filter p l) = List.filter p l.
Proof.
  induction l as [|x l IH]; [reflexivity |]. simpl.
  destruct (p x) eqn:E; [| exact IH]. simpl. rewrite E, IH. reflexivity.
Qed.

Lemma filter_filter_swap {A : Type} (p q : A -> bool) (l : list A) :
  List.filter p (List.filter q l) = List.filter q (List.filter p l).
Proof.
  induction l as [|x l IH]; [reflexivity |]. simpl.
  destruct (q x) eqn:Eq, (p x) eqn:Ep; simpl; rewrite ?Eq, ?Ep, IH;
    reflexivity.
Qed.

Lemma Forall_filter_bool {A : Type} (P : A -> Prop) (p : A -> bool)
    (l : list A) :
  Forall P l -> Forall P (List.filter p l).
Proof.
  induction 1 as [|x l Hx _ IH]; [constructor |]. simpl.
  destruct (p x); [constructor; assumption | assumption].
Qed.

(** X7. Each adapter treats a concatenation as two runs in sequence: the
    second part is processed on what the first part left, and an exception in
    the first part ends the call with the second part never looked at. *)
Theorem adapters_on_concatenation mth nth (state : gmap string pyval) :
  (forall datatype d1 d2 annotation,
     filter_scalar_loop mth nth datatype (d1 ++ d2) state annotation
     = match filter_scalar_loop mth nth datatype d1 state annotation with
       | (a, None) => filter_scalar_loop mth nth datatype d2 state a
       | (a, Some e) => (a, Some e)
       end) /\
  (forall d1 d2 annotation,
     filter_contour_loop mth nth (d1 ++ d2) state annotation
     = match filter_contour_loop mth nth d1 state annotation with
       | (a, None) => filter_contour_loop mth nth d2 state a
       | (a, Some e) => (a, Some e)
       end) /\
  (forall d1 d2 annotation,
     filter_class_loop mth nth (d1 ++ d2) state annotation
     = match filter_class_loop mth nth d1 state annotation with
       | (a, None) => filter_class_loop mth nth d2 state a
       | (a, Some e) => (a, Some e)
       end).
Proof.
  split; [| split].
  - intros datatype d1 d2.
    induction d1 as [|o d1 IH]; intros annotation; [reflexivity |]. simpl.
    destruct (checkfreqinband mth nth (value o) state datatype)
      as [[v b]|e]; [| reflexivity].
    destruct b; apply IH.
  - intros d1 d2.
    induction d1 as [|o d1 IH]; intros annotation; [reflexivity |]. simpl.
    destruct (checkfreqinband mth nth (frequency (value o)) state "hz")
      as [[v b]|e]; [| reflexivity].
    apply IH.
  - intros d1 d2.
    induction d1 as [|o d1 IH]; intros annotation; [reflexivity |]. simpl.
    destruct (checkfreqinband mth nth (VStr (class_token (value o))) state
                "pitchclass") as [[v b]|e]; [| reflexivity].
    destruct b; [| apply IH].
    destruct (class_value_of v); [apply IH | reflexivity].
Qed.

(** X8. The hz and midi adapters are idempotent: run again with the same
    descriptor on the output of a run that ended normally, they end normally
    and leave that output unchanged. *)
Theorem scalar_adapters_idempotent mth nth (state : gmap string pyval)
    (data out : list (Observation pyval)) :
  (filter_hz mth nth data state = (out, None) ->
   filter_hz mth nth out state = (out, None)) /\
  (filter_midi mth nth data state = (out, None) ->
   filter_midi mth nth out state = (out, None)).
Proof.
  assert (H : forall datatype,
             filter_scalar_loop mth nth datatype data state [] = (out, None) ->
             filter_scalar_loop mth nth datatype out state [] = (out, None)).
  { intros datatype Hrun.
    assert (Hret : Forall (fun o => exists r,
                     checkfreqinband mth nth (value o) state datatype = Ok r)
                     data).
    { apply (filter_scalar_loop_normal mth nth datatype state data []).
      rewrite Hrun. reflexivity. }
    rewrite (filter_scalar_loop_returns _ _ _ _ _ Hret []) in Hrun.
    injection Hrun as <-. simpl.
    rewrite (filter_scalar_loop_returns mth nth datatype state);
      [| apply Forall_filter_bool, Hret].
    simpl. rewrite filter_filter_same. reflexivity. }
  split; apply H.
Qed.

Lemma scalar_adapters_idempotent_witness :
  filter_hz (fun m => m) (fun _ => Raise LibraryError)
    [mkObs (VNum (PFloat 0)) (VNum (PFloat 1)) VNone (VNum (PFloat 2000))]
    (descriptor "low" (VNum (PInt 4000)) 8 (VNum (PFloat 60)) (PFloat 22050))
  = ([mkObs (VNum (PFloat 0)) (VNum (PFloat 1)) VNone (VNum (PFloat 2000))],
     None).
Proof.
  refine (proj1
    (scalar_adapters_idempotent (fun m => m) (fun _ => Raise LibraryError)
       (descriptor "low" (VNum (PInt 4000)) 8 (VNum (PFloat 60)) (PFloat 22050))
       [mkObs (VNum (PFloat 0)) (VNum (PFloat 1)) VNone (VNum (PFloat 2000));
        mkObs (VNum (PFloat 1)) (VNum (PFloat 1)) VNone (VNum (PFloat 6000))]
       [mkObs (VNum (PFloat 0)) (VNum (PFloat 1)) VNone (VNum (PFloat 2000))])
    _).
  vm_compute. reflexivity.
Defined.

Lemma hz_returns_on_numbers mth nth (state : gmap string pyval) lo hi
    (data : list (Observation pyval)) :
  spec_passband state = Some (lo, hi) ->
  Forall (fun o => exists f, value o = VNum f) data ->
  Forall (fun o => exists r,
            checkfreqinband mth nth (value o) state "hz" = Ok r) data.
Proof.
  intros Hpb Hnum. eapply Forall_impl; [exact Hnum |].
  intros o [f Hf]. rewrite Hf.
  destruct (checkfreqinband_hz_returns mth nth state lo hi f Hpb)
    as (v & b & Hr).
  eexists. exact Hr.
Qed.

(** X9. Two passes of the hz adapter commute: on numeric values and two
    descriptors with a passband, filtering with the first then the second
    leaves the same annotation as the second then the first. *)
Theorem filter_hz_commutes mth nth (s1 s2 : gmap string pyval)
    lo1 hi1 lo2 hi2 (data : list (Observation pyval)) :
  spec_passband s1 = Some (lo1, hi1) ->
  spec_passband s2 = Some (lo2, hi2) ->
  Forall (fun o => exists f, value o = VNum f) data ->
  filter_hz mth nth (filter_hz mth nth data s1).1 s2
  = filter_hz mth nth (filter_hz mth nth data s2).1 s1 /\
  (filter_hz mth nth (filter_hz mth nth data s1).1 s2).2 = None.
Proof.
  intros H1 H2 Hnum. unfold filter_hz.
  pose proof (hz_returns_on_numbers mth nth s1 lo1 hi1 data H1 Hnum) as R1.
  pose proof (hz_returns_on_numbers mth nth s2 lo2 hi2 data H2 Hnum) as R2.
  rewrite (filter_scalar_loop_returns _ _ _ _ _ R1 []).
  rewrite (filter_scalar_loop_returns _ _ _ _ _ R2 []). simpl.
  rewrite (filter_scalar_loop_returns mth nth "hz" s2);
    [| apply Forall_filter_bool, R2].
  rewrite (filter_scalar_loop_returns mth nth "hz" s1);
    [| apply Forall_filter_bool, R1].
  simpl. rewrite filter_filter_swap. split; reflexivity.
Qed.

Lemma filter_hz_commutes_witness :
  (filter_hz (fun m => m) (fun _ => Raise LibraryError)
     (filter_hz (fun m => m) (fun _ => Raise LibraryError)
        [mkObs (VNum (PFloat 0)) (VNum (PFloat 1)) VNone (VNum (PFloat 2000))]
        (descriptor "low" (VNum (PInt 4000)) 8 (VNum (PFloat 60))
           (PFloat 22050))).1
     (descriptor "high" (VNum (PInt 1000)) 8 (VNum (PFloat 60))
        (PFloat 22050))).2
  = None.
Proof.
  refine (proj2
    (filter_hz_commutes (fun m => m) (fun _ => Raise LibraryError)
       (descriptor "low" (VNum (PInt 4000)) 8 (VNum (PFloat 60)) (PFloat 22050))
       (descriptor "high" (VNum (PInt 1000)) 8 (VNum (PFloat 60))
          (PFloat 22050))
       (PInt 0) (PInt 4000) (PInt 1000) (PFloat 22050)
       [mkObs (VNum (PFloat 0)) (VNum (PFloat 1)) VNone (VNum (PFloat 2000))]
       _ _ _)).
  - vm_compute. reflexivity.
  - vm_compute. reflexivity.
  - repeat constructor. eexists. reflexivity.
Defined.

(** The band decision on a frequency in Hz, as a boolean. *)
Lemma checkfreqinband_hz_value mth nth (state : gmap string pyval) lo hi f :
  spec_passband state = Some (lo, hi) ->
  checkfreqinband mth nth (VNum f) state "hz"
  = Ok (if negb (num_leb f lo) && negb (num_geb f hi)
        then (VNum f, true) else (VNone, false)).
Proof.
  intros Hpb. unfold checkfreqinband. simpl.
  rewrite (passband_bounds_spec state lo hi Hpb). simpl.
  destruct (num_leb f lo); [reflexivity |].
  destruct (num_geb f hi); reflexivity.
Qed.

Lemma strictly_between_bool lo f hi :
  negb (num_leb f lo) && negb (num_geb f hi) = true <->
  strictly_between lo f hi.
Proof.
  unfold strictly_between.
  rewrite andb_true_iff, !negb_true_iff, num_leb_false, num_geb_false.
  reflexivity.
Qed.

Lemma in_bandb_hz mth nth (state : gmap string pyval) lo hi
    (o : Observation pyval) f :
  spec_passband state = Some (lo, hi) -> value o = VNum f ->
  in_bandb mth nth "hz" state o
  = negb (num_leb f lo) && negb (num_geb f hi).
Proof.
  intros Hpb Hf. unfold in_bandb.
  rewrite Hf, (checkfreqinband_hz_value mth nth state lo hi f Hpb).
  destruct (negb (num_leb f lo) && negb (num_geb f hi)); reflexivity.
Qed.

Lemma filter_filter_and {A : Type} (p q : A -> bool) (l : list A) :
  List.filter p (List.filter q l) = List.filter (fun x => q x && p x) l.
Proof.
  induction l as [|x l IH]; [reflexivity |]. simpl.
  destruct (q x); simpl; [destruct (p x) |]; rewrite IH; reflexivity.
Qed.

Lemma filter_agree {A : Type} (P : A -> Prop) (p q : A -> bool) (l : list A) :
  (forall x, P x -> p x = q x) -> Forall P l ->
  List.filter p l = List.filter q l.
Proof.
  intros Hpq. induction 1 as [|x l Hx _ IH]; [reflexivity |]. simpl.
  rewrite (Hpq x Hx), IH. reflexivity.
Qed.

(** X10. A cascade of two passes of the hz adapter is one pass with the
    intersection of the bands: with passbands [(lo, n)] then [(z, hi)], where
    [z <= lo] and [hi <= n], the annotation is the one a descriptor with
    passband [(lo, hi)] leaves.  In particular a high-pass at [lo] followed by
    a low-pass at [hi <= nyquist], with [0 <= lo], acts as the bandpass
    [(lo, hi)]. *)
Theorem filter_hz_cascade_is_bandpass mth nth (s1 s2 s : gmap string pyval)
    lo hi z n (data : list (Observation pyval)) :
  spec_passband s1 = Some (lo, n) ->
  spec_passband s2 = Some (z, hi) ->
  spec_passband s = Some (lo, hi) ->
  (num_val z <= num_val lo)%Q -> (num_val hi <= num_val n)%Q ->
  Forall (fun o => exists f, value o = VNum f) data ->
  filter_hz mth nth (filter_hz mth nth data s1).1 s2
  = filter_hz mth nth data s.
Proof.
  intros H1 H2 H Hz Hn Hnum. unfold filter_hz.
  pose proof (hz_returns_on_numbers mth nth s1 lo n data H1 Hnum) as R1.
  pose proof (hz_returns_on_numbers mth nth s2 z hi data H2 Hnum) as R2.
  pose proof (hz_returns_on_numbers mth nth s lo hi data H Hnum) as R.
  rewrite (filter_scalar_loop_returns _ _ _ _ _ R1 []).
  rewrite (filter_scalar_loop_returns _ _ _ _ _ R []). simpl.
  rewrite (filter_scalar_loop_returns mth nth "hz" s2);
    [| apply Forall_filter_bool, R2].
  simpl. rewrite filter_filter_and. f_equal.
  apply (filter_agree (fun o => exists f, value o = VNum f)); [| exact Hnum].
  intros o [f Hf].
  rewrite (in_bandb_hz mth nth s1 lo n o f H1 Hf),
    (in_bandb_hz mth nth s2 z hi o f H2 Hf),
    (in_bandb_hz mth nth s lo hi o f H Hf).
  destruct (num_leb f lo) eqn:E1; [reflexivity |].
  destruct (num_geb f hi) eqn:E2; simpl.
  - rewrite andb_false_r, andb_false_r. reflexivity.
  - apply num_leb_false in E1. apply num_geb_false in E2.
    rewrite (proj2 (num_geb_false f n) (Qlt_le_trans _ _ _ E2 Hn)).
    rewrite (proj2 (num_leb_false f z) (Qle_lt_trans _ _ _ Hz E1)).
    reflexivity.
Qed.

Lemma filter_hz_cascade_is_bandpass_witness :
  filter_hz (fun m => m) (fun _ => Raise LibraryError)
    (filter_hz (fun m => m) (fun _ => Raise LibraryError)
       [mkObs (VNum (PFloat 0)) (VNum (PFloat 1)) VNone (VNum (PFloat 2000));
        mkObs (VNum (PFloat 1)) (VNum (PFloat 1)) VNone (VNum (PFloat 6000))]
       (descriptor "high" (VNum (PInt 1000)) 8 (VNum (PFloat 60))
          (PFloat 22050))).1
    (descriptor "low" (VNum (PInt 4000)) 8 (VNum (PFloat 60)) (PFloat 22050))
  = filter_hz (fun m => m) (fun _ => Raise LibraryError)
      [mkObs (VNum (PFloat 0)) (VNum (PFloat 1)) VNone (VNum (PFloat 2000));
       mkObs (VNum (PFloat 1)) (VNum (PFloat 1)) VNone (VNum (PFloat 6000))]
      (descriptor "bandpass" (VTuple [VNum (PInt 1000); VNum (PInt 4000)]) 8
         (VNum (PFloat 60)) (PFloat 22050)).
Proof.
  refine (filter_hz_cascade_is_bandpass (fun m => m)
            (fun _ => Raise LibraryError) _ _ _
            (PInt 1000) (PInt 4000) (PInt 0) (PFloat 22050) _ _ _ _ _ _ _).
  - vm_compute. reflexivity.
  - vm_compute. reflexivity.
  - vm_compute. reflexivity.
  - vm_compute. discriminate.
  - vm_compute. discriminate.
  - repeat constructor; eexists; reflexivity.
Defined.

(** What the contour adapter leaves for a numeric frequency [f] and the
    passband [(lo, hi)]. *)
Lemma filter_contour_loop_explicit mth nth (state : gmap string pyval) lo hi
    data :
  spec_passband state = Some (lo, hi) ->
  Forall (fun o => exists f, frequency (value o) = VNum f) data ->
  forall annotation, exists out,
    filter_contour_loop mth nth data state annotation
      = ((annotation ++ out)%list, None) /\
    Forall2 (fun o o' =>
               time o' = time o /\ duration o' = duration o /\
               confidence o' = confidence o /\
               index (value o') = index (value o) /\
               exists f, frequency (value o) = VNum f /\
                 (strictly_between lo f hi ->
                    frequency (value o') = VNum f /\
                    voiced (value o') = true) /\
                 (~ strictly_between lo f hi ->
                    frequency (value o') = VNone /\
                    voiced (value o') = false))
      data out.
Proof.
  intros Hpb. induction 1 as [|o data [f Hf] _ IH]; intros annotation.
  - exists []. simpl. rewrite app_nil_r. split; [reflexivity | constructor].
  - simpl. rewrite Hf, (checkfreqinband_hz_value mth nth state lo hi f Hpb).
    destruct (negb (num_leb f lo) && negb (num_geb f hi)) eqn:E.
    + destruct (IH (annotation ++
        [mkObs (time o) (duration o) (confidence o)
           (mkContour (index (value o)) (VNum f) true)])%list)
        as (out & Hrun & Hall).
      eexists (_ :: out). rewrite Hrun, <- app_assoc. split; [reflexivity |].
      constructor; [| exact Hall]. simpl.
      apply strictly_between_bool in E.
      repeat split; try reflexivity. exists f.
      split; [exact Hf |]. split; [split; reflexivity | contradiction].
    + destruct (IH (annotation ++
        [mkObs (time o) (duration o) (confidence o)
           (mkContour (index (value o)) VNone false)])%list)
        as (out & Hrun & Hall).
      eexists (_ :: out). rewrite Hrun, <- app_assoc. split; [reflexivity |].
      constructor; [| exact Hall]. simpl.
      repeat split; try reflexivity. exists f.
      split; [exact Hf |]. split; [| split; reflexivity].
      intros Hb. apply strictly_between_bool in Hb. congruence.
Qed.

(** X11. The contour adapter ignores the [voiced] flag of its input and
    overwrites it with the band decision: an observation whose frequency is in
    band comes out voiced with that frequency, also when it came in unvoiced;
    one whose frequency is out of band comes out unvoiced with frequency
    [None]. *)
Theorem filter_contour_overwrites_voiced mth nth (state : gmap string pyval)
    lo hi (data : list (Observation ContourValue)) :
  spec_passband state = Some (lo, hi) ->
  Forall (fun o => exists f, frequency (value o) = VNum f) data ->
  Forall2 (fun o o' =>
             exists f, frequency (value o) = VNum f /\
               (strictly_between lo f hi ->
                  frequency (value o') = VNum f /\ voiced (value o') = true) /\
               (~ strictly_between lo f hi ->
                  frequency (value o') = VNone /\ voiced (value o') = false))
    data (filter_contour mth nth data state).1.
Proof.
  intros Hpb Hnum. unfold filter_contour.
  destruct (filter_contour_loop_explicit mth nth state lo hi data Hpb Hnum [])
    as (out & -> & Hall).
  simpl. eapply Forall2_impl; [exact Hall |].
  intros o o' (_ & _ & _ & _ & H). exact H.
Qed.

Lemma filter_contour_overwrites_voiced_witness :
  Forall2 (fun o o' =>
             exists f, frequency (value o) = VNum f /\
               (strictly_between (PInt 0) f (PInt 4000) ->
                  frequency (value o') = VNum f /\ voiced (value o') = true) /\
               (~ strictly_between (PInt 0) f (PInt 4000) ->
                  frequency (value o') = VNone /\ voiced (value o') = false))
    [mkObs (VNum (PFloat 0)) (VNum (PFloat 1)) VNone
       (mkContour 0 (VNum (PFloat 2000)) false)]
    (filter_contour (fun m => m) (fun _ => Raise LibraryError)
       [mkObs (VNum (PFloat 0)) (VNum (PFloat 1)) VNone
          (mkContour 0 (VNum (PFloat 2000)) false)]
       (descriptor "low" (VNum (PInt 4000)) 8 (VNum (PFloat 60))
          (PFloat 22050))).1.
Proof.
  refine (filter_contour_overwrites_voiced (fun m => m)
            (fun _ => Raise LibraryError) _ (PInt 0) (PInt 4000) _ _ _).
  - vm_compute. reflexivity.
  - repeat constructor. eexists. reflexivity.
Defined.

Lemma checkfreqinband_None_raises mth nth (state : gmap string pyval) lo hi :
  spec_passband state = Some (lo, hi) ->
  checkfreqinband mth nth VNone state "hz" = Raise TypeError.
Proof.
  intros Hpb. unfold checkfreqinband. simpl.
  rewrite (passband_bounds_spec state lo hi Hpb). reflexivity.
Qed.

Lemma filter_contour_loop_again mth nth (state : gmap string pyval) lo hi
    (data out : list (Observation ContourValue)) :
  spec_passband state = Some (lo, hi) ->
  Forall2 (fun o o' =>
             exists f, frequency (value o) = VNum f /\
               (strictly_between lo f hi ->
                  frequency (value o') = VNum f /\ voiced (value o') = true) /\
               (~ strictly_between lo f hi ->
                  frequency (value o') = VNone /\ voiced (value o') = false))
    data out ->
  forall annotation,
    (Exists (fun o => exists f, frequency (value o) = VNum f /\
                                ~ strictly_between lo f hi) data ->
     (filter_contour_loop mth nth out state annotation).2 = Some TypeError) /\
    (Forall (fun o => exists f, frequency (value o) = VNum f /\
                                strictly_between lo f hi) data ->
     filter_contour_loop mth nth out state annotation
     = ((annotation ++ out)%list, None)).
Proof.
  intros Hpb.
  induction 1 as [|o o' data out (f & Hf & Hin & Hout) _ IH];
    intros annotation.
  - split; [intros H; inversion H |].
    intros _. simpl. rewrite app_nil_r. reflexivity.
  - simpl.
    destruct (negb (num_leb f lo) && negb (num_geb f hi)) eqn:E.
    + apply strictly_between_bool in E. destruct (Hin E) as [Hf' Hv'].
      rewrite Hf', (checkfreqinband_hz_value mth nth state lo hi f Hpb).
      rewrite (proj2 (strictly_between_bool lo f hi) E).
      assert (Ho' : mkObs (time o') (duration o') (confidence o')
                      (mkContour (index (value o')) (VNum f) true) = o').
      { destruct o' as [t d c [i fr v]]. simpl in *. congruence. }
      rewrite Ho'.
      destruct (IH (annotation ++ [o'])%list) as [IH1 IH2]. split.
      * intros Hex. apply Exists_cons in Hex as [(f' & Hf2 & Hn) | Hex];
          [| exact (IH1 Hex)].
        rewrite Hf in Hf2. injection Hf2 as <-. contradiction.
      * intros Hall. apply Forall_cons in Hall as [_ Hall].
        rewrite (IH2 Hall), <- app_assoc. reflexivity.
    + assert (Hn : ~ strictly_between lo f hi).
      { intros Hb. apply strictly_between_bool in Hb. congruence. }
      destruct (Hout Hn) as [Hf' _].
      rewrite Hf', (checkfreqinband_None_raises mth nth state lo hi Hpb).
      split; [reflexivity |].
      intros Hall. apply Forall_cons in Hall as [(f' & Hf2 & Hb) _].
      rewrite Hf in Hf2. injection Hf2 as <-. contradiction.
Qed.

(** X12. Running the contour adapter a second time on its own output, with
    the same descriptor: if the first run marked any observation out of band,
    the second run meets its [None] frequency and raises [TypeError]; if every
    observation was in band, the second run leaves the output unchanged. *)
Theorem filter_contour_second_pass mth nth (state : gmap string pyval) lo hi
    (data : list (Observation ContourValue)) :
  spec_passband state = Some (lo, hi) ->
  Forall (fun o => exists f, frequency (value o) = VNum f) data ->
  let out := (filter_contour mth nth data state).1 in
  (Exists (fun o => exists f, frequency (value o) = VNum f /\
                              ~ strictly_between lo f hi) data ->
   (filter_contour mth nth out state).2 = Some TypeError) /\
  (Forall (fun o => exists f, frequency (value o) = VNum f /\
                              strictly_between lo f hi) data ->
   filter_contour mth nth out state = (out, None)).
Proof.
  intros Hpb Hnum. cbv zeta. unfold filter_contour.
  destruct (filter_contour_loop_explicit mth nth state lo hi data Hpb Hnum [])
    as (out & -> & Hall).
  simpl.
  apply (filter_contour_loop_again mth nth state lo hi data out Hpb).
  eapply Forall2_impl; [exact Hall |].
  intros o o' (_ & _ & _ & _ & H). exact H.
Qed.

Lemma filter_contour_second_pass_witness :
  (filter_contour (fun m => m) (fun _ => Raise LibraryError)
     (filter_contour (fun m => m) (fun _ => Raise LibraryError)
        [mkObs (VNum (PFloat 0)) (VNum (PFloat 1)) VNone
           (mkContour 0 (VNum (PFloat 6000)) true)]
        (descriptor "low" (VNum (PInt 4000)) 8 (VNum (PFloat 60))
           (PFloat 22050))).1
     (descriptor "low" (VNum (PInt 4000)) 8 (VNum (PFloat 60))
        (PFloat 22050))).2
  = Some TypeError.
Proof.
  refine (proj1
    (filter_contour_second_pass (fun m => m) (fun _ => Raise LibraryError)
       _ (PInt 0) (PInt 4000) _ _ _) _).
  - vm_compute. reflexivity.
  - repeat constructor. eexists. reflexivity.
  - constructor. exists (PFloat 6000). split; [reflexivity |].
    intros [_ H]. vm_compute in H. discriminate.
Defined.

(** ** Decoding the pitch-class token *)

Lemma str_init_String c s :
  s <> EmptyString -> str_init (String c s) = String c (str_init s).
Proof. intros H. destruct s; [exfalso; apply H; reflexivity | reflexivity]. Qed.

Lemma str_init_append s1 s2 :
  s2 <> EmptyString ->
  str_init (String.append s1 s2) = String.append s1 (str_init s2).
Proof.
  intros Hne. induction s1 as [|c s1 IH]; [reflexivity |].
  change (String.append (String c s1) s2) with (String c (String.append s1 s2)).
  rewrite str_init_String by (apply append_nonempty, Hne).
  rewrite IH. reflexivity.
Qed.

Lemma string_of_uint_nonempty (d : Decimal.uint) :
  d <> Decimal.Nil -> NilEmpty.string_of_uint d <> EmptyString.
Proof. destruct d; [congruence | discriminate ..]. Qed.

Lemma str_last_revapp (l acc : Decimal.uint) :
  acc <> Decimal.Nil ->
  str_last (NilEmpty.string_of_uint (Decimal.revapp l acc))
  = str_last (NilEmpty.string_of_uint acc).
Proof.
  revert acc.
  induction l as [|l IH|l IH|l IH|l IH|l IH|l IH|l IH|l IH|l IH|l IH];
    intros acc Hacc; [reflexivity | ..];
    (simpl Decimal.revapp; rewrite IH by discriminate;
     cbn [NilEmpty.string_of_uint];
     apply str_last_String, string_of_uint_nonempty, Hacc).
Qed.

Lemma little_uint_last (lu : Decimal.uint) :
  lu <> Decimal.Nil ->
  exists c,
    str_last (NilEmpty.string_of_uint (Decimal.rev lu)) = Some c /\
    int_of_char c = Ok (Z.of_N (DecimalPos.Unsigned.hd lu)) /\
    (DecimalPos.Unsigned.hd lu < 10)%N.
Proof.
  intros Hne. unfold Decimal.rev.
  destruct lu; [congruence | ..];
    (simpl Decimal.revapp; rewrite str_last_revapp by discriminate;
     eexists; split; [reflexivity | split; [reflexivity | reflexivity]]).
Qed.

Lemma pos_to_uint_last (p : positive) :
  exists c,
    str_last (NilZero.string_of_uint (Pos.to_uint p)) = Some c /\
    int_of_char c = Ok (Z.pos p mod 10).
Proof.
  assert (Hlu : Pos.to_little_uint p <> Decimal.Nil).
  { intros E. apply (DecimalPos.Unsigned.to_uint_nonnil p).
    unfold Pos.to_uint. rewrite E. reflexivity. }
  destruct (little_uint_last _ Hlu) as (c & Hc & Hd & Hlt).
  exists c. split.
  - pose proof (DecimalPos.Unsigned.to_uint_nonnil p) as Hn.
    unfold NilZero.string_of_uint.
    destruct (Pos.to_uint p) eqn:E; [congruence | ..];
      rewrite <- E; exact Hc.
  - rewrite Hd. f_equal.
    pose proof (DecimalPos.Unsigned.of_lu_rev (Pos.to_little_uint p)) as H1.
    change (Decimal.rev (Pos.to_little_uint p)) with (Pos.to_uint p) in H1.
    rewrite DecimalPos.Unsigned.of_to in H1.
    rewrite (DecimalPos.Unsigned.of_lu_eqn (Pos.to_little_uint p)) in H1.
    assert (H2 : Z.pos p
                 = Z.of_N (DecimalPos.Unsigned.hd (Pos.to_little_uint p))
                   + 10 * Z.of_N (DecimalPos.Unsigned.of_lu
                                    (DecimalPos.Unsigned.tl (Pos.to_little_uint p)))).
    { change (Z.pos p) with (Z.of_N (N.pos p)). rewrite H1. lia. }
    rewrite H2.
    apply (Z.mod_unique _ _
             (Z.of_N (DecimalPos.Unsigned.of_lu
                        (DecimalPos.Unsigned.tl (Pos.to_little_uint p)))));
      lia.
Qed.

Lemma str_of_int_last_digit (n : Z) :
  exists c, str_last (str_of_int n) = Some c /\
            int_of_char c = Ok (Z.abs n mod 10).
Proof.
  unfold str_of_int. destruct n as [|p|p]; simpl Z.to_int.
  - eexists. split; reflexivity.
  - apply pos_to_uint_last.
  - destruct (pos_to_uint_last p) as (c & Hc & Hd). exists c.
    split; [| exact Hd].
    unfold NilZero.string_of_int. rewrite str_last_String; [exact Hc |].
    intros E. rewrite E in Hc. discriminate.
Qed.

(** X13. What the pitch-class adapter decodes from the token of an in-band
    observation: [pitch] becomes the last decimal digit of its absolute value,
    and [tonic] becomes the old tonic followed by [str(pitch)] without that
    digit, that is by the sign and the leading digits when there are any. *)
Theorem class_value_of_token (v : ClassValue) :
  class_value_of (VStr (class_token v))
  = Ok (mkClass (String.append (tonic v) (str_init (str_of_int (pitch v))))
          (Z.abs (pitch v) mod 10)).
Proof.
  destruct (str_of_int_last_digit (pitch v)) as (c & Hc & Hd).
  assert (Hne : str_of_int (pitch v) <> EmptyString).
  { intros E. rewrite E in Hc. discriminate. }
  unfold class_value_of, slice_init, index_last, class_token. simpl.
  rewrite (str_last_append _ _ Hne), Hc. simpl. rewrite Hd. simpl.
  rewrite (str_init_append _ _ Hne). reflexivity.
Qed.




(** * Further properties of the deterministic generator *)

(** X15. The empty list as [cutoff]: for every [btype] other than
    ["bandpass"] the constructor raises [IndexError] (it reads [cutoff[0]]);
    for ["bandpass"] it succeeds with no entry, and [states] then ends
    normally without a yield. *)
Theorem Filter_init_empty_list cheb2ord (attenuation : pyval) jam (h : store) :
  (forall btype, btype <> "bandpass" ->
     Filter.init btype attenuation (VList []) = Raise IndexError) /\
  Filter.init "bandpass" attenuation (VList [])
    = Ok (Filter.mk "bandpass" attenuation []) /\
  yielded (Filter.states cheb2ord (Filter.mk "bandpass" attenuation []) jam h)
    = [] /\
  ending_of (Filter.states cheb2ord (Filter.mk "bandpass" attenuation []) jam h)
    = Finished.
Proof.
  split; [| repeat split].
  intros btype Hbt. unfold Filter.init.
  rewrite (proj2 (String.eqb_neq _ _) Hbt). reflexivity.
Qed.

Lemma forallb_is_tuple_pairs (pairs : list (pyval * pyval)) :
  forallb Filter.is_tuple (map (fun p => VTuple [p.1; p.2]) pairs) = true.
Proof. induction pairs; [reflexivity | exact IHpairs]. Qed.

(** X16. For ["bandpass"], a list of pairs written as two-element lists is
    held as the same list written as tuples: both constructions succeed with
    the same generator. *)
Theorem Filter_init_bandpass_lists_as_tuples (attenuation : pyval)
    (pairs : list (pyval * pyval)) :
  Filter.init "bandpass" attenuation
    (VList (map (fun p => VList [p.1; p.2]) pairs))
  = Ok (Filter.mk "bandpass" attenuation
          (map (fun p => VTuple [p.1; p.2]) pairs)) /\
  Filter.init "bandpass" attenuation
    (VList (map (fun p => VTuple [p.1; p.2]) pairs))
  = Ok (Filter.mk "bandpass" attenuation
          (map (fun p => VTuple [p.1; p.2]) pairs)).
Proof.
  split.
  - destruct pairs as [|p pairs]; [reflexivity |].
    assert (H1 : forall l : list (pyval * pyval),
              forallb Filter.is_list (map (fun p => VList [p.1; p.2]) l) = true)
      by (induction l as [|q l IH]; [reflexivity | exact IH]).
    assert (H2 : forall l : list (pyval * pyval),
              forallb Filter.len_is_2 (map (fun p => VList [p.1; p.2]) l)
              = true)
      by (induction l as [|q l IH]; [reflexivity | exact IH]).
    change (Filter.init "bandpass" attenuation
              (VList (map (fun p => VList [p.1; p.2]) (p :: pairs))))
      with (if forallb Filter.is_list
                 (map (fun p => VList [p.1; p.2]) (p :: pairs))
            then
              if forallb Filter.len_is_2
                   (map (fun p => VList [p.1; p.2]) (p :: pairs))
              then Ok (Filter.mk "bandpass" attenuation
                         (map Filter.tuple_of
                            (map (fun p => VList [p.1; p.2]) (p :: pairs))))
              else Raise (ValueError Filter.bandpass_msg)
            else Raise (ValueError Filter.bandpass_msg)).
    rewrite (H1 (p :: pairs)), (H2 (p :: pairs)), map_map. reflexivity.
  - unfold Filter.init. simpl. rewrite forallb_is_tuple_pairs. reflexivity.
Qed.

(** X17. For ["bandpass"] the constructor does not look at the length of a
    tuple: a tuple that is not a pair is accepted, and it is [states] that
    raises [ValueError], when it unpacks the entry, before any yield. *)
Theorem Filter_bandpass_tuple_checked_in_states cheb2ord
    (attenuation : pyval) (t : list pyval) jam (h : store) :
  length t <> 2%nat ->
  Filter.init "bandpass" attenuation (VTuple t)
    = Ok (Filter.mk "bandpass" attenuation [VTuple t]) /\
  yielded (Filter.states cheb2ord
             (Filter.mk "bandpass" attenuation [VTuple t]) jam h) = [] /\
  ending_of (Filter.states cheb2ord
               (Filter.mk "bandpass" attenuation [VTuple t]) jam h)
    = Raised (ValueError "unpack").
Proof.
  intros Hlen. split; [reflexivity |].
  unfold Filter.states. simpl.
  destruct t as [|a [|b [|c t]]]; simpl in *; try (split; reflexivity).
  congruence.
Qed.

Lemma Filter_bandpass_tuple_checked_in_states_witness :
  ending_of (Filter.states (fun _ _ _ _ _ => Ok 8)
               (Filter.mk "bandpass" (VNum (PFloat 60))
                  [VTuple [VNum (PInt 500); VNum (PInt 1000);
                           VNum (PInt 2000)]])
               (mkJam (PInt 44100)) [])
  = Raised (ValueError "unpack").
Proof.
  refine (proj2 (proj2
    (Filter_bandpass_tuple_checked_in_states (fun _ _ _ _ _ => Ok 8)
       (VNum (PFloat 60))
       [VNum (PInt 500); VNum (PInt 1000); VNum (PInt 2000)]
       (mkJam (PInt 44100)) [] _))).
  simpl. lia.
Defined.

Section FilterRunUntil.

Variable cheb2ord :
  list pyval -> list pyval -> pyval -> pyval -> pyval -> result Z.
Variable self : Filter.t.
Variable fs : pynum.
Variable state : nat.

Hypothesis estimator_returns :
  forall wp ws, exists n,
    cheb2ord wp ws (VNum (PInt 3)) (Filter.attenuation self) (VNum fs) = Ok n.

Lemma fill_and_yield_until nyquist wp ws (h : store) c continue rest e :
  (exists d, h !! state = Some d /\ d !! "cut_off" = Some c /\
             d !! "nyquist" = Some nyquist) ->
  (forall h', has_nyquist state nyquist h' -> ended_with (continue h') rest e) ->
  ended_with
    (Filter.fill_and_yield self state
       (cheb2ord wp ws (VNum (PInt 3)) (Filter.attenuation self) (VNum fs))
       h continue)
    (c :: rest) e.
Proof.
  intros (d & Hd & Hc & Hn) Hk. unfold Filter.fill_and_yield.
  destruct (estimator_returns wp ws) as [n ->].
  pose proof (setitem_lookup state "order" (VNum (PInt n)) h d Hd) as H1.
  pose proof (setitem_lookup state "attenuation" (Filter.attenuation self)
                _ _ H1) as H2.
  pose proof (setitem_lookup state "btype" (VStr (Filter.btype self))
                _ _ H2) as H3.
  destruct (Hk (setitem state "btype" (VStr (Filter.btype self))
                  (setitem state "attenuation" (Filter.attenuation self)
                     (setitem state "order" (VNum (PInt n)) h))))
    as [Hend Hall].
  { eexists. split; [exact H3 |].
    rewrite !lookup_insert_ne by discriminate. exact Hn. }
  split; [exact Hend |]. simpl. constructor; [| exact Hall].
  unfold field. simpl. rewrite H3.
  rewrite !lookup_insert_ne by discriminate. exact Hc.
Qed.

Lemma low_loop_until nyquist good tail e :
  Forall (fun e => exists f, e = VNum f /\ (0 < num_val f)%Q) good ->
  (forall (fr : frame) (h : store),
     ended_with (Filter.low_loop cheb2ord self fr state tail h) [] e) ->
  forall (fr : frame) (h : store),
    fr !! "fs" = Some (VNum fs) -> has_nyquist state nyquist h ->
    ended_with (Filter.low_loop cheb2ord self fr state (good ++ tail) h) good e.
Proof.
  intros Hgood Htail.
  induction Hgood as [|x good (f & -> & Hpos) _ IH]; intros fr h Hfs Hn.
  - apply Htail.
  - simpl. rewrite (num_leb_zero_false f Hpos).
    rewrite (order_low_eval cheb2ord self fs fr f Hfs).
    apply (fill_and_yield_until nyquist);
      [apply setitem_cut_off, Hn |].
    intros h' Hh'. apply IH; [| exact Hh'].
    rewrite lookup_insert_ne by discriminate. exact Hfs.
Qed.

Lemma high_loop_until nyquist good tail e :
  Forall (fun e => exists f, e = VNum f /\ (0 < num_val f)%Q /\
                             (num_val f < num_val nyquist)%Q) good ->
  (forall (fr : frame) (h : store),
     has_nyquist state (VNum nyquist) h ->
     ended_with (Filter.high_loop cheb2ord self fr state tail h) [] e) ->
  forall (fr : frame) (h : store),
    fr !! "fs" = Some (VNum fs) -> has_nyquist state (VNum nyquist) h ->
    ended_with (Filter.high_loop cheb2ord self fr state (good ++ tail) h)
      good e.
Proof.
  intros Hgood Htail.
  induction Hgood as [|x good (f & -> & Hpos & Hlt) _ IH];
    intros fr h Hfs Hn.
  - apply Htail, Hn.
  - simpl. pose proof Hn as (d & Hd & Hnyq).
    unfold Filter.high_rejects, state_getitem, getitem. simpl.
    rewrite (num_leb_zero_false f Hpos). simpl. rewrite Hd, Hnyq. simpl.
    rewrite (proj2 (num_geb_false f nyquist) Hlt).
    rewrite (order_high_eval cheb2ord self fs fr f Hfs).
    apply (fill_and_yield_until (VNum nyquist));
      [apply setitem_cut_off, Hn |].
    intros h' Hh'. apply IH; [| exact Hh'].
    rewrite lookup_insert_ne by discriminate. exact Hfs.
Qed.

Lemma bandpass_loop_until nyquist good tail e :
  Forall (fun e => exists lo hi, e = VTuple [VNum lo; VNum hi] /\
                                 (num_val lo <= num_val hi)%Q) good ->
  (forall (fr : frame) (h : store),
     ended_with (Filter.bandpass_loop cheb2ord self fr state tail h) [] e) ->
  forall (fr : frame) (h : store),
    fr !! "fs" = Some (VNum fs) -> has_nyquist state nyquist h ->
    ended_with (Filter.bandpass_loop cheb2ord self fr state (good ++ tail) h)
      good e.
Proof.
  intros Hgood Htail.
  induction Hgood as [|x good (lo & hi & -> & Hle) _ IH]; intros fr h Hfs Hn.
  - apply Htail.
  - simpl. unfold num_gtb.
    rewrite (proj2 (Qle_bool_iff _ _) Hle). simpl.
    rewrite (order_bandpass_eval cheb2ord self fs _ lo hi Hfs).
    apply (fill_and_yield_until nyquist);
      [apply setitem_cut_off, Hn |].
    intros h' Hh'. apply IH; [| exact Hh'].
    rewrite !lookup_insert_ne by discriminate. exact Hfs.
Qed.

End FilterRunUntil.

Lemma valid_entry_low fs (l : list pyval) :
  Forall (valid_entry "low" fs) l ->
  Forall (fun e => exists f, e = VNum f /\ (0 < num_val f)%Q) l.
Proof.
  intros H. eapply Forall_impl; [exact H |].
  clear H. intros [|f|s|t|l'] He; try contradiction.
  - destruct He as [[_ H] | [E _]]; [| discriminate]. eauto.
  - simpl in He.
    destruct t as [|[|lo| | |] [|[|hi| | |] [|? ?]]]; try contradiction.
    destruct He as [E _]. discriminate.
Qed.

Lemma valid_entry_high fs (l : list pyval) :
  Forall (valid_entry "high" fs) l ->
  Forall (fun e => exists f, e = VNum f /\ (0 < num_val f)%Q /\
                             (num_val f < num_val (num_div fs (PInt 2)))%Q) l.
Proof.
  intros H. eapply Forall_impl; [exact H |].
  clear H. intros [|f|s|t|l'] He; try contradiction.
  - destruct He as [[E _] | (_ & H1 & H2)]; [discriminate |]. eauto.
  - simpl in He.
    destruct t as [|[|lo| | |] [|[|hi| | |] [|? ?]]]; try contradiction.
    destruct He as [E _]. discriminate.
Qed.

Lemma valid_entry_bandpass fs (l : list pyval) :
  Forall (valid_entry "bandpass" fs) l ->
  Forall (fun e => exists lo hi, e = VTuple [VNum lo; VNum hi] /\
                                 (num_val lo <= num_val hi)%Q) l.
Proof.
  intros H. eapply Forall_impl; [exact H |].
  clear H. intros [|f|s|t|l'] He; try contradiction.
  - destruct He as [[E _] | [E _]]; discriminate.
  - simpl in He.
    destruct t as [|[|lo| | |] [|[|hi| | |] [|? ?]]]; try contradiction.
    destruct He as [_ H]. exists lo, hi. split; [reflexivity |].
    apply Qlt_le_weak, H.
Qed.

(** X18. [Filter.states] fails lazily.  When the entries of the generator are
    valid entries followed by one that its check rejects, one call yields a
    descriptor for each of the valid entries before it, each with its entry as
    [cut_off], and only then raises [ValueError]; nothing is yielded for the
    rejected entry or for those after it. *)
Theorem Filter_states_fails_lazily cheb2ord self jam (h : store)
    (good : list pyval) (bad : pyval) (rest : list pyval) :
  Filter.cutoff self = (good ++ bad :: rest)%list ->
  Forall (valid_entry (Filter.btype self) (sr jam)) good ->
  rejected_entry (Filter.btype self) (sr jam) bad ->
  (forall wp ws, exists n,
     cheb2ord wp ws (VNum (PInt 3)) (Filter.attenuation self) (VNum (sr jam))
     = Ok n) ->
  let tr := Filter.states cheb2ord self jam h in
  Forall2 (fun y e => field "cut_off" y = Some e) (yielded tr) good /\
  exists msg, ending_of tr = Raised (ValueError msg).
Proof.
  intros Hcut Hgood Hbad Hest. cbv zeta.
  assert (H : exists msg,
            ended_with (Filter.states cheb2ord self jam h) good
              (Raised (ValueError msg))).
  { unfold Filter.states.
    destruct (AbstractFilter_states_has_nyquist jam h) as [-> Hn].
    assert (Hfs : ({[ "fs" := VNum (sr jam) ]} : frame) !! "fs"
                  = Some (VNum (sr jam))) by apply lookup_singleton_eq.
    rewrite Hcut.
    destruct bad as [|f|s|t|l']; try contradiction.
    - destruct Hbad as [[Hbt Hf] | [Hbt Hf]]; rewrite Hbt in *; simpl.
      + eexists. eapply low_loop_until; eauto using valid_entry_low.
        intros fr h'. simpl.
        rewrite (num_leb_true f (PInt 0) Hf). split; [reflexivity | constructor].
      + eexists. eapply high_loop_until; eauto using valid_entry_high.
        intros fr h' (d & Hd & Hnyq). simpl.
        unfold Filter.high_rejects, state_getitem, getitem. simpl.
        destruct (num_leb f (PInt 0)) eqn:E; simpl;
          [split; [reflexivity | constructor] |].
        rewrite Hd, Hnyq. simpl.
        destruct Hf as [Hf | Hf].
        * rewrite (num_leb_true f (PInt 0) Hf) in E. discriminate.
        * assert (E2 : num_geb f (num_div (sr jam) (PInt 2)) = true)
            by (apply Qle_bool_iff; exact Hf).
          rewrite E2. split; [reflexivity | constructor].
    - simpl in Hbad.
      destruct t as [|[|lo| | |] [|[|hi| | |] [|? ?]]]; try contradiction.
      destruct Hbad as [Hbt Hlt]. rewrite Hbt in *. simpl.
      eexists. eapply bandpass_loop_until; eauto using valid_entry_bandpass.
      intros fr h'. simpl. unfold num_gtb.
      assert (E : Qle_bool (num_val lo) (num_val hi) = false).
      { apply (num_leb_false lo hi), Hlt. }
      rewrite E. split; [reflexivity | constructor]. }
  destruct H as (msg & Hend & Hall). split; [exact Hall |].
  exists msg. exact Hend.
Qed.

Lemma Filter_states_fails_lazily_witness :
  exists msg,
    ending_of (Filter.states (fun _ _ _ _ _ => Ok 8)
                 (Filter.mk "low" (VNum (PFloat 60))
                    [VNum (PInt 1000); VNum (PInt (-1)); VNum (PInt 2000)])
                 (mkJam (PInt 44100)) [])
    = Raised (ValueError msg).
Proof.
  refine (proj2
    (Filter_states_fails_lazily (fun _ _ _ _ _ => Ok 8)
       (Filter.mk "low" (VNum (PFloat 60))
          [VNum (PInt 1000); VNum (PInt (-1)); VNum (PInt 2000)])
       (mkJam (PInt 44100)) []
       [VNum (PInt 1000)] (VNum (PInt (-1))) [VNum (PInt 2000)] _ _ _ _)).
  - reflexivity.
  - repeat constructor.
  - left. split; [reflexivity |]. vm_compute. discriminate.
  - intros wp ws. exists 8. reflexivity.
Defined.



(** ** What every yielded descriptor holds *)

Lemma fill_and_yield_filled cheb2ord_result self state nyquist (h : store)
    continue :
  (exists d, h !! state = Some d /\ is_Some (d !! "cut_off") /\
             d !! "nyquist" = Some nyquist) ->
  (forall h', has_nyquist state nyquist h' ->
     Forall (filled (Filter.btype self) (Filter.attenuation self) nyquist)
       (yielded (continue h'))) ->
  Forall (filled (Filter.btype self) (Filter.attenuation self) nyquist)
    (yielded (Filter.fill_and_yield self state cheb2ord_result h continue)).
Proof.
  intros (d & Hd & Hc & Hn) Hk. unfold Filter.fill_and_yield.
  destruct cheb2ord_result as [n|e]; [| constructor].
  pose proof (setitem_lookup state "order" (VNum (PInt n)) h d Hd) as H1.
  pose proof (setitem_lookup state "attenuation" (Filter.attenuation self)
                _ _ H1) as H2.
  pose proof (setitem_lookup state "btype" (VStr (Filter.btype self))
                _ _ H2) as H3.
  simpl. constructor.
  - unfold filled, field. simpl. rewrite H3.
    rewrite lookup_insert_eq.
    rewrite (lookup_insert_ne _ "btype" "attenuation") by discriminate.
    rewrite lookup_insert_eq.
    rewrite !(lookup_insert_ne _ _ "nyquist") by discriminate.
    rewrite !(lookup_insert_ne _ _ "order") by discriminate.
    rewrite lookup_insert_eq.
    rewrite !(lookup_insert_ne _ _ "cut_off") by discriminate.
    repeat split; try assumption. eexists. reflexivity.
  - apply Hk. eexists. split; [exact H3 |].
    rewrite !lookup_insert_ne by discriminate. exact Hn.
Qed.

Lemma setitem_cut_off_present state nyquist c (h : store) :
  has_nyquist state nyquist h ->
  exists d, setitem state "cut_off" c h !! state = Some d /\
            is_Some (d !! "cut_off") /\ d !! "nyquist" = Some nyquist.
Proof.
  intros (d & Hd & Hn). exists (<["cut_off" := c]> d).
  split; [apply setitem_lookup, Hd |].
  split; [rewrite lookup_insert_eq; eexists; reflexivity |].
  rewrite lookup_insert_ne by discriminate. exact Hn.
Qed.

Ltac loop_filled IH :=
  apply fill_and_yield_filled;
  [ apply setitem_cut_off_present; assumption
  | intros h' Hh'; apply IH, Hh' ].

Lemma bandpass_loop_filled cheb2ord self state nyquist entries :
  forall fr (h : store), has_nyquist state nyquist h ->
  Forall (filled (Filter.btype self) (Filter.attenuation self) nyquist)
    (yielded (Filter.bandpass_loop cheb2ord self fr state entries h)).
Proof.
  induction entries as [|entry rest IH]; intros fr h Hn; simpl;
    [constructor |].
  destruct (unpack2 entry) as [[low high]|e]; [| constructor].
  destruct (py_gt low high) as [[]|e]; [constructor | | constructor].
  loop_filled IH.
Qed.

Lemma low_loop_filled cheb2ord self state nyquist entries :
  forall fr (h : store), has_nyquist state nyquist h ->
  Forall (filled (Filter.btype self) (Filter.attenuation self) nyquist)
    (yielded (Filter.low_loop cheb2ord self fr state entries h)).
Proof.
  induction entries as [|freq rest IH]; intros fr h Hn; simpl;
    [constructor |].
  destruct (py_le freq (VNum (PInt 0))) as [[]|e];
    [constructor | | constructor].
  loop_filled IH.
Qed.

Lemma high_loop_filled cheb2ord self state nyquist entries :
  forall fr (h : store), has_nyquist state nyquist h ->
  Forall (filled (Filter.btype self) (Filter.attenuation self) nyquist)
    (yielded (Filter.high_loop cheb2ord self fr state entries h)).
Proof.
  induction entries as [|freq rest IH]; intros fr h Hn; simpl;
    [constructor |].
  destruct (Filter.high_rejects freq state h) as [[]|e];
    [constructor | | constructor].
  loop_filled IH.
Qed.

Lemma Filter_states_filled cheb2ord self jam (h : store) :
  Forall (filled (Filter.btype self) (Filter.attenuation self)
            (VNum (num_div (sr jam) (PInt 2))))
    (yielded (Filter.states cheb2ord self jam h)).
Proof.
  unfold Filter.states.
  destruct (AbstractFilter_states_has_nyquist jam h) as [-> Hn].
  destruct (String.eqb (Filter.btype self) "bandpass");
    [apply bandpass_loop_filled, Hn |].
  destruct (String.eqb (Filter.btype self) "low");
    [apply low_loop_filled, Hn |].
  destruct (String.eqb (Filter.btype self) "high");
    [apply high_loop_filled, Hn | constructor].
Qed.


Lemma Forall2_Forall_both {A B : Type} (R : A -> B -> Prop)
    (P Q : A -> Prop) (S : B -> Prop) (l : list A) (k : list B) :
  (forall x y, R x y -> P x -> S y -> Q x) ->
  Forall2 R l k -> Forall P l -> Forall S k -> Forall Q l.
Proof.
  intros HQ HR. induction HR as [|x y l k Hxy _ IH]; intros HP HS;
    [constructor |].
  apply Forall_cons in HP as [Hx HP]. apply Forall_cons in HS as [Hy HS].
  constructor; [exact (HQ x y Hxy Hx Hy) | exact (IH HP HS)].
Qed.

(** X21. What the generator yields is what the classifier expects: when the
    entries of a generator satisfy their domain constraints and the order
    estimator returns, every descriptor yielded by [Filter.states] has a
    passband [(lo, hi)] in the sense of the classifier, and that passband is
    not empty. *)
Theorem Filter_states_descriptors_classifiable cheb2ord self jam (h : store) :
  Forall (valid_entry (Filter.btype self) (sr jam)) (Filter.cutoff self) ->
  (forall wp ws, exists n,
     cheb2ord wp ws (VNum (PInt 3)) (Filter.attenuation self) (VNum (sr jam))
     = Ok n) ->
  Forall (fun y => exists d lo hi,
            y.2 !! y.1 = Some d /\ spec_passband d = Some (lo, hi) /\
            (num_val lo < num_val hi)%Q)
    (yielded (Filter.states cheb2ord self jam h)).
Proof.
  intros Hvalid Hest.
  pose proof (Filter_states_filled cheb2ord self jam h) as Hfilled.
  assert (Hcut : exists entries,
            Forall2 (fun y e => field "cut_off" y = Some e)
              (yielded (Filter.states cheb2ord self jam h)) entries /\
            Forall (valid_entry (Filter.btype self) (sr jam)) entries).
  { unfold Filter.states.
    destruct (AbstractFilter_states_has_nyquist jam h) as [-> Hn].
    assert (Hfs : ({[ "fs" := VNum (sr jam) ]} : frame) !! "fs"
                  = Some (VNum (sr jam))) by apply lookup_singleton_eq.
    destruct (String.eqb (Filter.btype self) "bandpass") eqn:E1.
    { apply String.eqb_eq in E1. exists (Filter.cutoff self).
      split; [| exact Hvalid]. rewrite E1 in Hvalid.
      eapply proj2, bandpass_loop_ran; eauto.
      eapply Forall_impl; [exact Hvalid |].
      intros [|f|s|t|l'] He; try contradiction.
      - destruct He as [[E _] | [E _]]; discriminate.
      - simpl in He.
        destruct t as [|[|lo| | |] [|[|hi| | |] [|? ?]]]; try contradiction.
        destruct He as [_ H]. exists lo, hi. split; [reflexivity | exact H]. }
    destruct (String.eqb (Filter.btype self) "low") eqn:E2.
    { apply String.eqb_eq in E2. exists (Filter.cutoff self).
      split; [| exact Hvalid]. rewrite E2 in Hvalid.
      eapply proj2, low_loop_ran; eauto using valid_entry_low. }
    destruct (String.eqb (Filter.btype self) "high") eqn:E3.
    { apply String.eqb_eq in E3. exists (Filter.cutoff self).
      split; [| exact Hvalid]. rewrite E3 in Hvalid.
      eapply proj2, high_loop_ran; eauto using valid_entry_high. }
    exists []. split; constructor. }
  destruct Hcut as (entries & Hcut & Hval).
  eapply Forall2_Forall_both; [| exact Hcut | exact Hfilled | exact Hval].
  intros y e Hc (Hb & _ & Hn & _ & _) He. unfold field in *.
  destruct (y.2 !! y.1) as [d|]; [| discriminate]. exists d.
  unfold spec_passband. rewrite Hb, Hc.
  destruct e as [|f|s|t|l']; try contradiction.
  - destruct He as [[-> Hf] | (-> & Hf1 & Hf2)]; simpl.
    + exists (PInt 0), f. repeat split. exact Hf.
    + rewrite Hn. exists f, (num_div (sr jam) (PInt 2)). repeat split.
      exact Hf2.
  - simpl in He.
    destruct t as [|[|lo| | |] [|[|hi| | |] [|? ?]]]; try contradiction.
    destruct He as [-> Hlt]. simpl. exists lo, hi. repeat split. exact Hlt.
Qed.

Lemma Filter_states_descriptors_classifiable_witness :
  Forall (fun y => exists d lo hi,
            y.2 !! y.1 = Some d /\ spec_passband d = Some (lo, hi) /\
            (num_val lo < num_val hi)%Q)
    (yielded (Filter.states (fun _ _ _ _ _ => Ok 8)
                (Filter.mk "high" (VNum (PFloat 60)) [VNum (PInt 1000)])
                (mkJam (PInt 44100)) [])).
Proof.
  refine (Filter_states_descriptors_classifiable (fun _ _ _ _ _ => Ok 8)
            (Filter.mk "high" (VNum (PFloat 60)) [VNum (PInt 1000)])
            (mkJam (PInt 44100)) [] _ _).
  - constructor; [| constructor]. right. split; [reflexivity |].
    split; vm_compute; reflexivity.
  - intros wp ws. exists 8. reflexivity.
Defined.

(** ** The store around a run *)

Section StoreInvariant.

Variable P : store -> Prop.
Variable state : nat.
Hypothesis P_setitem : forall k v (h : store), P h -> P (setitem state k v h).

Lemma fill_and_yield_stores self cheb2ord_result (h : store) continue :
  P h ->
  (forall h', P h' -> P (final (continue h')) /\
                      Forall (fun y => P y.2) (yielded (continue h'))) ->
  P (final (Filter.fill_and_yield self state cheb2ord_result h continue)) /\
  Forall (fun y => P y.2)
    (yielded (Filter.fill_and_yield self state cheb2ord_result h continue)).
Proof.
  intros Hh Hk. unfold Filter.fill_and_yield.
  destruct cheb2ord_result as [n|e]; [| split; [exact Hh | constructor]].
  assert (H3 : P (setitem state "btype" (VStr (Filter.btype self))
                    (setitem state "attenuation" (Filter.attenuation self)
                       (setitem state "order" (VNum (PInt n)) h))))
    by (repeat apply P_setitem; exact Hh).
  destruct (Hk _ H3) as [Hf Hy]. split; [exact Hf |].
  simpl. constructor; [exact H3 | exact Hy].
Qed.

Lemma bandpass_loop_stores cheb2ord self entries :
  forall fr (h : store), P h ->
  P (final (Filter.bandpass_loop cheb2ord self fr state entries h)) /\
  Forall (fun y => P y.2)
    (yielded (Filter.bandpass_loop cheb2ord self fr state entries h)).
Proof.
  induction entries as [|entry rest IH]; intros fr h Hh; simpl;
    [split; [exact Hh | constructor] |].
  destruct (unpack2 entry) as [[low high]|e];
    [| split; [exact Hh | constructor]].
  destruct (py_gt low high) as [[]|e]; try (split; [exact Hh | constructor]).
  apply fill_and_yield_stores; [apply P_setitem, Hh |].
  intros h' Hh'. apply IH, Hh'.
Qed.

Lemma low_loop_stores cheb2ord self entries :
  forall fr (h : store), P h ->
  P (final (Filter.low_loop cheb2ord self fr state entries h)) /\
  Forall (fun y => P y.2)
    (yielded (Filter.low_loop cheb2ord self fr state entries h)).
Proof.
  induction entries as [|freq rest IH]; intros fr h Hh; simpl;
    [split; [exact Hh | constructor] |].
  destruct (py_le freq (VNum (PInt 0))) as [[]|e];
    try (split; [exact Hh | constructor]).
  apply fill_and_yield_stores; [apply P_setitem, Hh |].
  intros h' Hh'. apply IH, Hh'.
Qed.

Lemma high_loop_stores cheb2ord self entries :
  forall fr (h : store), P h ->
  P (final (Filter.high_loop cheb2ord self fr state entries h)) /\
  Forall (fun y => P y.2)
    (yielded (Filter.high_loop cheb2ord self fr state entries h)).
Proof.
  induction entries as [|freq rest IH]; intros fr h Hh; simpl;
    [split; [exact Hh | constructor] |].
  destruct (Filter.high_rejects freq state h) as [[]|e];
    try (split; [exact Hh | constructor]).
  apply fill_and_yield_stores; [apply P_setitem, Hh |].
  intros h' Hh'. apply IH, Hh'.
Qed.

End StoreInvariant.

(** X22. A call of [Filter.states] creates exactly one dictionary and writes
    to no other: in the store of every yield and in the store at the end of
    the run, whether it ends normally or in an exception, the objects that
    existed before the call are unchanged and there is one object more. *)
Theorem Filter_states_store_frame cheb2ord self jam (h : store) :
  let tr := Filter.states cheb2ord self jam h in
  extends_by_one h (final tr) /\
  Forall (fun y => extends_by_one h y.2) (yielded tr).
Proof.
  cbv zeta.
  assert (Hset : forall k v (h' : store),
             extends_by_one h h' ->
             extends_by_one h (setitem (length h) k v h')).
  { intros k v h' [Hlen Hold]. split.
    - unfold setitem. rewrite length_alter. exact Hlen.
    - intros i Hi. unfold setitem.
      rewrite list_lookup_alter_ne by lia. apply Hold, Hi. }
  assert (H0 : extends_by_one h
                 (h ++ [{[ "nyquist" := VNum (num_div (sr jam) (PInt 2)) ]}])).
  { split.
    - rewrite length_app. simpl. lia.
    - intros i Hi. apply lookup_app_l, Hi. }
  unfold Filter.states.
  destruct (AbstractFilter_states_has_nyquist jam h) as [-> _].
  destruct (String.eqb (Filter.btype self) "bandpass");
    [apply (bandpass_loop_stores _ _ Hset), H0 |].
  destruct (String.eqb (Filter.btype self) "low");
    [apply (low_loop_stores _ _ Hset), H0 |].
  destruct (String.eqb (Filter.btype self) "high");
    [apply (high_loop_stores _ _ Hset), H0 |].
  split; [exact H0 | constructor].
Qed.

(** * Further properties of the random generators *)

Section Redraw.

Context {Seed Rng : Type}.
Variable normal : Rng -> pynum -> pynum -> pynum * Rng.

(** X23. The rejection loop of [RandomBPFilter.states]: whenever it is left,
    it is left with [low < high]; it draws nothing when the first pair already
    has [low < high]; and a loop that is left within some fuel is left with
    the same pair and the same random source within any larger fuel. *)
Theorem RandomBPFilter_redraw_exits_ordered
    (self : RandomBPFilter.t Seed Rng) :
  (forall fuel high low g high' low' g',
     RandomBPFilter.redraw normal fuel self high low g = Some (high', low', g') ->
     (num_val low' < num_val high')%Q) /\
  (forall fuel high low g,
     (num_val low < num_val high)%Q ->
     RandomBPFilter.redraw normal fuel self high low g = Some (high, low, g)) /\
  (forall fuel high low g r,
     RandomBPFilter.redraw normal fuel self high low g = Some r ->
     RandomBPFilter.redraw normal (S fuel) self high low g = Some r).
Proof.
  split; [| split].
  - induction fuel as [|fuel IH]; intros high low g high' low' g' H;
      simpl in H; destruct (num_leb high low) eqn:E; try discriminate.
    + injection H as <- <- <-. apply num_leb_false, E.
    + destruct (normal g _ _) as [h1 g1]. destruct (normal g1 _ _) as [l1 g2].
      exact (IH _ _ _ _ _ _ H).
    + injection H as <- <- <-. apply num_leb_false, E.
  - intros fuel high low g Hlt.
    apply (num_leb_false high low) in Hlt.
    destruct fuel; simpl; rewrite Hlt; reflexivity.
  - induction fuel as [|fuel IH]; intros high low g r H.
    + simpl in H. simpl. destruct (num_leb high low); [discriminate | exact H].
    + cbn [RandomBPFilter.redraw] in H. cbn [RandomBPFilter.redraw].
      destruct (num_leb high low); [| exact H].
      destruct (normal g _ _) as [h1 g1]. destruct (normal g1 _ _) as [l1 g2].
      apply IH in H. exact H.
Qed.

End Redraw.

(** A random source for the examples: it hands out the numbers of a list in
    turn, whatever mean and deviation are asked for, and the mean once the
    list is used up. *)
Example RandomBPFilter_redraw_example :
  let normal := fun (g : list pynum) (loc scale : pynum) =>
                  match g with
                  | x :: g' => (x, g')
                  | [] => (loc, [])
                  end in
  let self :=
    RandomBPFilter.mk (VNum (PInt 1)) (VNum (PFloat 60)) (PFloat 10) 0%Z
      ([] : list pynum) (PFloat 500) (PFloat 510) in
  RandomBPFilter.redraw normal 3 self (PFloat 498) (PFloat 503)
    [PFloat 501; PFloat 505; PFloat 512; PFloat 499]
  = Some (PFloat 512, PFloat 499, []) /\
  RandomBPFilter.redraw normal 1 self (PFloat 498) (PFloat 503)
    [PFloat 501; PFloat 505; PFloat 512; PFloat 499]
  = None.
Proof. vm_compute. split; reflexivity. Qed.

Lemma RandomHPFilter_init_rejects_witness :
  exists msg,
    RandomHPFilter.init (fun seed : Z => Ok seed) (VNum (PInt 3))
      (VNum (PFloat 60)) (VNum (PInt (-1))) (VNum (PFloat 1)) 0
    = Raise (ValueError msg).
Proof.
  refine (RandomHPFilter_init_rejects (fun seed : Z => Ok seed) (PInt 3)
            (PFloat 60) (PInt (-1)) (PFloat 1) 0 _).
  right. right. right. vm_compute. discriminate.
Defined.

Lemma RandomLPFilter_init_rejects_witness :
  exists msg,
    RandomLPFilter.init (fun seed : Z => Ok seed) (VNum (PInt 3))
      (VNum (PFloat 60)) (VNum (PFloat (-1))) (VNum (PFloat 1)) 0
    = Raise (ValueError msg).
Proof.
  refine (RandomLPFilter_init_rejects (fun seed : Z => Ok seed) (PInt 3)
            (PFloat 60) (PFloat 1) (VNum (PFloat (-1))) 0 _ _).
  - right. right. right. exists (-1)%Q. split; [reflexivity |].
    vm_compute. discriminate.
  - eexists. reflexivity.
Defined.

Lemma RandomBPFilter_init_rejects_witness :
  exists msg,
    RandomBPFilter.init (fun seed : Z => Ok seed) (VNum (PInt 3))
      (VNum (PFloat 60)) (VNum (PInt 5000)) (VNum (PInt 1000))
      (VNum (PFloat 1)) 0
    = Raise (ValueError msg).
Proof.
  refine (RandomBPFilter_init_rejects (fun seed : Z => Ok seed) (PInt 3)
            (PFloat 60) (PInt 5000) (PInt 1000) (PFloat 1) 0 _).
  right. right. right. left. vm_compute. discriminate.
Defined.

Lemma reject_nonpositive_passes n msg :
  (0 < num_val n)%Q -> reject_nonpositive (VNum n) msg = Ok tt.
Proof.
  intros H. unfold reject_nonpositive. simpl.
  rewrite (num_leb_zero_false n H). reflexivity.
Qed.

(** X27. With numeric parameters that are all positive, and
    [cutoff_low < cutoff_high] for the bandpass generator, the three
    constructors succeed as soon as [_get_rng] does; they keep [n_samples] and
    [attenuation] as given and convert [sigma] and the cutoffs to float. *)
Theorem Random_init_accepts {Seed Rng : Type} (_get_rng : Seed -> result Rng)
    (n_samples attenuation cutoff cutoff_high sigma : pynum)
    (rng : Seed) (g : Rng) :
  (0 < num_val sigma)%Q -> (0 < num_val n_samples)%Q ->
  (0 < num_val attenuation)%Q -> (0 < num_val cutoff)%Q ->
  (num_val cutoff < num_val cutoff_high)%Q ->
  _get_rng rng = Ok g ->
  RandomLPFilter.init _get_rng (VNum n_samples) (VNum attenuation)
    (VNum cutoff) (VNum sigma) rng
  = Ok (RandomLPFilter.mk (VNum n_samples) (VNum attenuation)
          (to_float sigma) rng g (to_float cutoff)) /\
  RandomHPFilter.init _get_rng (VNum n_samples) (VNum attenuation)
    (VNum cutoff) (VNum sigma) rng
  = Ok (RandomHPFilter.mk (VNum n_samples) (VNum attenuation)
          (to_float sigma) rng g (to_float cutoff)) /\
  RandomBPFilter.init _get_rng (VNum n_samples) (VNum attenuation)
    (VNum cutoff) (VNum cutoff_high) (VNum sigma) rng
  = Ok (RandomBPFilter.mk (VNum n_samples) (VNum attenuation)
          (to_float sigma) rng g (to_float cutoff) (to_float cutoff_high)).
Proof.
  intros Hs Hn Ha Hc Hlt Hg.
  assert (Hh : (0 < num_val cutoff_high)%Q)
    by (eapply Qlt_trans; eassumption).
  split; [| split].
  - unfold RandomLPFilter.init.
    rewrite !reject_nonpositive_passes by assumption. simpl.
    destruct cutoff as [z|q]; simpl; rewrite Hg; reflexivity.
  - unfold RandomHPFilter.init.
    rewrite !reject_nonpositive_passes by assumption. simpl.
    rewrite Hg. reflexivity.
  - unfold RandomBPFilter.init, reject_nonpositive_unless_None.
    rewrite !reject_nonpositive_passes by assumption. simpl.
    rewrite (proj2 (num_geb_false cutoff cutoff_high) Hlt).
    rewrite (num_leb_zero_false cutoff Hc). simpl.
    rewrite (num_leb_zero_false cutoff_high Hh). simpl.
    rewrite Hg. reflexivity.
Qed.

Lemma Random_init_accepts_witness :
  RandomBPFilter.init (fun seed : Z => Ok seed) (VNum (PInt 5))
    (VNum (PFloat 60)) (VNum (PInt 500)) (VNum (PInt 2000)) (VNum (PInt 10)) 42
  = Ok (RandomBPFilter.mk (VNum (PInt 5)) (VNum (PFloat 60))
          (to_float (PInt 10)) 42 42 (to_float (PInt 500))
          (to_float (PInt 2000))).
Proof.
  refine (proj2 (proj2
    (Random_init_accepts (fun seed : Z => Ok seed) (PInt 5) (PFloat 60)
       (PInt 500) (PInt 2000) (PInt 10) 42 42 _ _ _ _ _ _)));
    reflexivity.
Defined.

(** X28. [None] in [RandomBPFilter.__init__].  The constructor skips its
    checks on a parameter that is [None].  With the other parameters valid,
    [attenuation=None] and [n_samples=None] are accepted; a generator built
    with [n_samples=None] raises [TypeError] from [states] before any yield
    and any draw; [sigma=None] raises [TypeError] in the constructor, at
    [float(sigma)]. *)
Theorem RandomBPFilter_init_None {Seed Rng : Type}
    (_get_rng : Seed -> result Rng)
    (normal : Rng -> pynum -> pynum -> pynum * Rng) cheb2ord
    (n_samples attenuation cutoff_low cutoff_high sigma : pynum)
    (rng : Seed) (g : Rng) fuel jam (h : store) :
  (0 < num_val sigma)%Q -> (0 < num_val n_samples)%Q ->
  (0 < num_val attenuation)%Q -> (0 < num_val cutoff_low)%Q ->
  (num_val cutoff_low < num_val cutoff_high)%Q ->
  _get_rng rng = Ok g ->
  RandomBPFilter.init _get_rng (VNum n_samples) VNone
    (VNum cutoff_low) (VNum cutoff_high) (VNum sigma) rng
  = Ok (RandomBPFilter.mk (VNum n_samples) VNone (to_float sigma) rng g
          (to_float cutoff_low) (to_float cutoff_high)) /\
  RandomBPFilter.init _get_rng VNone (VNum attenuation)
    (VNum cutoff_low) (VNum cutoff_high) (VNum sigma) rng
  = Ok (RandomBPFilter.mk VNone (VNum attenuation) (to_float sigma) rng g
          (to_float cutoff_low) (to_float cutoff_high)) /\
  RandomBPFilter.states normal cheb2ord fuel
    (RandomBPFilter.mk VNone (VNum attenuation) (to_float sigma) rng g
       (to_float cutoff_low) (to_float cutoff_high)) jam h
  = (mkTrace [] (AbstractFilter.states jam h).2 (Raised TypeError), g) /\
  RandomBPFilter.init _get_rng (VNum n_samples) (VNum attenuation)
    (VNum cutoff_low) (VNum cutoff_high) VNone rng
  = Raise TypeError.
Proof.
  intros Hs Hn Ha Hc Hlt Hg.
  assert (Hh : (0 < num_val cutoff_high)%Q)
    by (eapply Qlt_trans; eassumption).
  assert (Hcut : forall k : result (RandomBPFilter.t Seed Rng),
            (let* c := py_ge (VNum cutoff_low) (VNum cutoff_high) in
             if c then Raise (ValueError
               "band pass higher cutoff frequency must be strictly greater than lower cutoff frequency")
             else
               let* c1 := py_le (VNum cutoff_low) (VNum (PInt 0)) in
               let* c2 := (if c1 then Ok true
                           else py_le (VNum cutoff_high) (VNum (PInt 0))) in
               if c2 then Raise (ValueError
                 "band pass cutoff frequency must be strictly greater than zero")
               else k) = k).
  { intros k. simpl.
    rewrite (proj2 (num_geb_false cutoff_low cutoff_high) Hlt).
    rewrite (num_leb_zero_false cutoff_low Hc). simpl.
    rewrite (num_leb_zero_false cutoff_high Hh). reflexivity. }
  repeat split.
  - unfold RandomBPFilter.init, reject_nonpositive_unless_None.
    rewrite !reject_nonpositive_passes by assumption.
    cbn [rbind]. rewrite Hcut. simpl. rewrite Hg. reflexivity.
  - unfold RandomBPFilter.init, reject_nonpositive_unless_None.
    rewrite !reject_nonpositive_passes by assumption.
    cbn [rbind]. rewrite Hcut. simpl. rewrite Hg. reflexivity.
  - unfold RandomBPFilter.init, reject_nonpositive_unless_None.
    rewrite !reject_nonpositive_passes by assumption.
    cbn [rbind]. rewrite Hcut. reflexivity.
Qed.

Lemma RandomBPFilter_init_None_witness :
  RandomBPFilter.init (fun seed : Z => Ok seed) (VNum (PInt 5))
    (VNum (PFloat 60)) (VNum (PInt 500)) (VNum (PInt 2000)) VNone 42
  = Raise TypeError.
Proof.
  refine (proj2 (proj2 (proj2
    (RandomBPFilter_init_None (fun seed : Z => Ok seed)
       (fun g loc scale => (loc, g)) (fun _ _ _ _ _ => Ok 8)
       (PInt 5) (PFloat 60) (PInt 500) (PInt 2000) (PInt 10) 42 42
       0%nat (mkJam (PInt 44100)) [] _ _ _ _ _ _))));
    reflexivity.
Defined.

(** X29. A list is never accepted as [cutoff] by [RandomLPFilter.__init__]
    or [RandomHPFilter.__init__], whatever it holds and whatever the other
    parameters are: the low-pass constructor has a branch that validates a
    list, but then applies [float] to it. *)
Theorem Random_init_list_cutoff_raises {Seed Rng : Type}
    (_get_rng : Seed -> result Rng)
    (n_samples attenuation sigma : pyval) (l : list pyval) (rng : Seed) :
  (exists e,
     RandomLPFilter.init _get_rng n_samples attenuation (VList l) sigma rng
     = Raise e) /\
  (exists e,
     RandomHPFilter.init _get_rng n_samples attenuation (VList l) sigma rng
     = Raise e).
Proof.
  split.
  - unfold RandomLPFilter.init.
    destruct (reject_nonpositive sigma _) as [[]|e]; [| eexists; reflexivity].
    cbn [rbind].
    destruct (reject_nonpositive n_samples _) as [[]|e];
      [| eexists; reflexivity].
    cbn [rbind is_float].
    destruct (np_any_nonpositive l) as [[]|e]; cbn [rbind];
      try (eexists; reflexivity).
    destruct (reject_nonpositive attenuation _) as [[]|e];
      [| eexists; reflexivity].
    cbn [rbind].
    destruct (py_float sigma) as [s|e]; [| eexists; reflexivity].
    cbn [rbind].
    destruct (_get_rng rng) as [g|e]; eexists; reflexivity.
  - unfold RandomHPFilter.init.
    destruct (reject_nonpositive sigma _) as [[]|e]; [| eexists; reflexivity].
    cbn [rbind].
    destruct (reject_nonpositive n_samples _) as [[]|e];
      [| eexists; reflexivity].
    cbn [rbind].
    destruct (reject_nonpositive attenuation _) as [[]|e];
      eexists; reflexivity.
Qed.

(** * The filter design on what the generator yields *)

Lemma Filter_states_ran cheb2ord self jam (h : store) :
  Forall (valid_entry (Filter.btype self) (sr jam)) (Filter.cutoff self) ->
  (forall wp ws, exists n,
     cheb2ord wp ws (VNum (PInt 3)) (Filter.attenuation self) (VNum (sr jam))
     = Ok n) ->
  ran (Filter.states cheb2ord self jam h) (Filter.cutoff self).
Proof.
  intros Hvalid Hest. unfold Filter.states.
  destruct (AbstractFilter_states_has_nyquist jam h) as [-> Hn].
  assert (Hfs : ({[ "fs" := VNum (sr jam) ]} : frame) !! "fs"
                = Some (VNum (sr jam))) by apply lookup_singleton_eq.
  destruct (String.eqb (Filter.btype self) "bandpass") eqn:E1.
  { apply String.eqb_eq in E1. rewrite E1 in Hvalid.
    rewrite <- (app_nil_r (Filter.cutoff self)) at 1.
    eapply bandpass_loop_until; eauto using valid_entry_bandpass.
    intros fr h'. split; [reflexivity | constructor]. }
  destruct (String.eqb (Filter.btype self) "low") eqn:E2.
  { apply String.eqb_eq in E2. rewrite E2 in Hvalid.
    eapply low_loop_ran; eauto using valid_entry_low. }
  destruct (String.eqb (Filter.btype self) "high") eqn:E3.
  { apply String.eqb_eq in E3. rewrite E3 in Hvalid.
    eapply high_loop_ran; eauto using valid_entry_high. }
  destruct (Filter.cutoff self) as [|e l]; [split; [reflexivity | constructor] |].
  exfalso. apply Forall_cons in Hvalid as [He _].
  destruct e as [|f|s|t|l']; try contradiction.
  - destruct He as [[E _] | [E _]]; rewrite E in *; discriminate.
  - simpl in He.
    destruct t as [|[|lo| | |] [|[|hi| | |] [|? ?]]]; try contradiction.
    destruct He as [E _]. rewrite E in *. discriminate.
Qed.

Lemma Forall2_with_Forall {A B : Type} (R : A -> B -> Prop) (P : A -> Prop)
    (S : B -> Prop) (l : list A) (k : list B) :
  Forall2 R l k -> Forall P l -> Forall S k ->
  Forall2 (fun x y => R x y /\ P x /\ S y) l k.
Proof.
  induction 1 as [|x y l k Hxy _ IH]; intros HP HS; [constructor |].
  apply Forall_cons in HP as [Hx HP]. apply Forall_cons in HS as [Hy HS].
  constructor; [tauto | exact (IH HP HS)].
Qed.

(** X30. [AbstractFilter.audio] on the descriptors of [Filter.states].  When
    the attenuation of the generator is a number, its entries satisfy their
    domain constraints and the order estimator returns, [audio] finds every
    key it reads in each yielded descriptor: it designs the filter with the
    yielded [order], half the declared attenuation, the entry as critical
    frequency (the two bounds of a bandpass pair), the [btype] of the
    generator and the sample rate of the buffer, and replaces the samples by
    what [sosfiltfilt] returns, keeping the sample rate. *)
Theorem audio_on_yielded_descriptors {Sos Signal : Type}
    (cheby2 : pyval -> pyval -> list pyval -> pyval -> pynum -> result Sos)
    (sosfiltfilt : Sos -> Signal -> result Signal)
    cheb2ord self jam (h : store) (a : pynum)
    (mudabox : AbstractFilter.AudioBuffer Signal) :
  Filter.attenuation self = VNum a ->
  Forall (valid_entry (Filter.btype self) (sr jam)) (Filter.cutoff self) ->
  (forall wp ws, exists n,
     cheb2ord wp ws (VNum (PInt 3)) (Filter.attenuation self) (VNum (sr jam))
     = Ok n) ->
  Forall2 (fun y e => exists d n,
             y.2 !! y.1 = Some d /\
             AbstractFilter.audio cheby2 sosfiltfilt mudabox d
             = (let* sos := cheby2 (VNum (PInt n))
                              (VNum (num_div a (PInt 2))) (critical e)
                              (VStr (Filter.btype self))
                              (AbstractFilter.audio_sr mudabox) in
                let* y' := sosfiltfilt sos (AbstractFilter.audio_y mudabox) in
                Ok (AbstractFilter.mkAudio
                      (AbstractFilter.audio_sr mudabox) y')))
    (yielded (Filter.states cheb2ord self jam h)) (Filter.cutoff self).
Proof.
  intros Hatt Hvalid Hest.
  destruct (Filter_states_ran cheb2ord self jam h Hvalid Hest) as [_ Hcut].
  pose proof (Filter_states_filled cheb2ord self jam h) as Hfilled.
  eapply Forall2_impl;
    [exact (Forall2_with_Forall _ _ _ _ _ Hcut Hfilled Hvalid) |].
  intros y e (Hc & (Hb & Ha & _ & [n Ho] & _) & He). unfold field in *.
  destruct (y.2 !! y.1) as [d|]; [| discriminate]. exists d, n.
  split; [reflexivity |].
  unfold AbstractFilter.audio, getitem. rewrite Hb. cbn [rbind eq_str].
  rewrite Hc, Ho, Ha, Hatt.
  destruct e as [|f|s|t|l']; try contradiction.
  - destruct He as [[-> _] | [-> _]]; reflexivity.
  - simpl in He.
    destruct t as [|[|lo| | |] [|[|hi| | |] [|? ?]]]; try contradiction.
    destruct He as [-> _]. reflexivity.
Qed.

Lemma audio_on_yielded_descriptors_witness :
  Forall2 (fun y e => exists d n,
             y.2 !! y.1 = Some d /\
             AbstractFilter.audio
               (fun _ _ _ _ _ => Ok tt) (fun _ (y : list Q) => Ok y)
               (AbstractFilter.mkAudio (PInt 44100) [1%Q; 2%Q]) d
             = (let* sos := (fun _ _ _ _ _ => Ok tt) (VNum (PInt n))
                              (VNum (num_div (PFloat 60) (PInt 2)))
                              (critical e) (VStr "low") (PInt 44100) in
                let* y' := (fun _ (y : list Q) => Ok y) sos [1%Q; 2%Q] in
                Ok (AbstractFilter.mkAudio (PInt 44100) y')))
    (yielded (Filter.states (fun _ _ _ _ _ => Ok 8)
                (Filter.mk "low" (VNum (PFloat 60)) [VNum (PInt 1000)])
                (mkJam (PInt 44100)) []))
    [VNum (PInt 1000)].
Proof.
  refine (audio_on_yielded_descriptors
            (fun _ _ _ _ _ => Ok tt) (fun _ (y : list Q) => Ok y)
            (fun _ _ _ _ _ => Ok 8)
            (Filter.mk "low" (VNum (PFloat 60)) [VNum (PInt 1000)])
            (mkJam (PInt 44100)) [] (PFloat 60)
            (AbstractFilter.mkAudio (PInt 44100) [1%Q; 2%Q]) _ _ _).
  - reflexivity.
  - constructor; [| constructor]. left. split; reflexivity.
  - intros wp ws. exists 8. reflexivity.
Defined.
